(** * Lab5: content repurposing with a reflexion loop and a tool-calling agent

    A shallow embedding of [Lab5.py].  The program talks to a language-model
    completion service through one function, [call_llm]; everything else is
    control flow around it.  The service is modelled as a deterministic oracle
    that maps the calls made so far and the current request to a response (or
    to no response, when the client raised and [call_llm] returned [None]).
    Every call is appended to a log, so that statements about "how many
    gateway calls" and "in which order" are statements about that log.

    Python exceptions are modelled explicitly: a computation either returns a
    value or raises.  Console output ([print]) has no effect on control flow
    (the one place where printing could raise is wrapped in [try/except]) and
    is left out. *)

From Stdlib Require Import List String Ascii Bool Arith ZArith Lia Floats.
Import ListNotations.
Set Warnings "-inexact-float,-register-all".
Local Open Scope string_scope.

(** ** Python values *)

(** The values that flow through the program: what [json.loads] can produce,
    plus [None]. A dictionary is an association list in insertion order. *)
Inductive value : Type :=
| VNone
| VBool (b : bool)
| VInt (z : Z)
| VFloat (f : float)
| VStr (s : string)
| VList (l : list value)
| VDict (d : list (string * value)).

Inductive exn : Type :=
| TypeError
| KeyError (k : string)
| AttributeError
| JSONDecodeError
| OtherError (msg : string).

Inductive Outcome (A : Type) : Type :=
| Ok (a : A)
| Raise (e : exn).
Arguments Ok {A} a.
Arguments Raise {A} e.

(** Truth value of an object, as tested by [if x] and [not x]. *)
Definition truthy (v : value) : bool :=
  match v with
  | VNone => false
  | VBool b => b
  | VInt z => negb (Z.eqb z 0)
  | VFloat f => negb (PrimFloat.eqb f 0%float)
  | VStr s => negb (String.eqb s "")
  | VList l => match l with [] => false | _ => true end
  | VDict d => match d with [] => false | _ => true end
  end.

Fixpoint assoc (k : string) (d : list (string * value)) : option value :=
  match d with
  | [] => None
  | (k', v) :: d' => if String.eqb k k' then Some v else assoc k d'
  end.

(** [v[k]] for a string key [k]. *)
Definition subscript (v : value) (k : string) : Outcome value :=
  match v with
  | VDict d => match assoc k d with Some x => Ok x | None => Raise (KeyError k) end
  | _ => Raise TypeError
  end.

(** [v.get(k, dflt)]: only dictionaries have the method. *)
Definition dict_get (v : value) (k : string) (dflt : value) : Outcome value :=
  match v with
  | VDict d => match assoc k d with Some x => Ok x | None => Ok dflt end
  | _ => Raise AttributeError
  end.

(** [d[k] = x] on a dictionary: an existing key keeps its position. *)
Fixpoint dict_set (d : list (string * value)) (k : string) (x : value)
  : list (string * value) :=
  match d with
  | [] => [(k, x)]
  | (k', v) :: d' =>
      if String.eqb k k' then (k', x) :: d' else (k', v) :: dict_set d' k x
  end.

Fixpoint chars (s : string) : list value :=
  match s with
  | EmptyString => []
  | String c s' => VStr (String c EmptyString) :: chars s'
  end.

(** [for x in v]: lists yield their elements, strings their characters,
    dictionaries their keys; anything else is not iterable. *)
Definition py_iter (v : value) : Outcome (list value) :=
  match v with
  | VList l => Ok l
  | VStr s => Ok (chars s)
  | VDict d => Ok (map (fun kv => VStr (fst kv)) d)
  | _ => Raise TypeError
  end.

(** ** Text built by formatting

    Prompts are f-strings over arbitrary values.  A prompt is kept as the
    sequence of its pieces: literal text, [str(v)] of a value, and
    [json.dumps(v)] of a value.  The rendering itself never fails on the
    values above and is not needed for any control-flow decision. *)
Inductive fragment : Type :=
| Lit (s : string)
| Fmt (v : value)
| Dumps (v : value).

Definition text := list fragment.

Definition nl : string := String (ascii_of_nat 10) EmptyString.

(** ["\n".join(f"- {kp}" for kp in items)] *)
Fixpoint join_bullets (items : list value) : text :=
  match items with
  | [] => []
  | [kp] => [Lit "- "; Fmt kp]
  | kp :: rest => Lit "- " :: Fmt kp :: Lit nl :: join_bullets rest
  end.

Definition bullet_lines (key_points : value) : Outcome text :=
  match py_iter key_points with
  | Ok items => Ok (join_bullets items)
  | Raise e => Raise e
  end.

(** Substring test, [needle in hay]. *)
Fixpoint starts_with (needle hay : string) : bool :=
  match needle, hay with
  | EmptyString, _ => true
  | String a n', String b h' => Ascii.eqb a b && starts_with n' h'
  | String _ _, EmptyString => false
  end.

Fixpoint contains (needle hay : string) : bool :=
  starts_with needle hay ||
  match hay with
  | EmptyString => false
  | String _ h' => contains needle h'
  end.

(** ** The completion gateway *)

Record ToolSchema : Type := {
  schema_name : string;
  schema_properties : list (string * string);
  schema_required : list string
}.

(** A tool call of a response. The program reads [function.arguments] only
    through [json.loads]; the argument text is represented by what
    [json.loads] makes of it, [None] standing for text that does not parse. *)
Record ToolCall : Type := {
  tc_id : string;
  tc_name : string;
  tc_arguments : option value
}.

(** [response.choices[0].message] *)
Record Response : Type := {
  msg_content : option string;
  msg_tool_calls : list ToolCall
}.

Inductive message : Type :=
| Msg (role : string) (body : text)
| ToolMsg (tool_call_id name : string) (body : text)
| Assistant (m : Response).

Record Request : Type := {
  req_messages : list message;
  req_tools : list ToolSchema;
  req_tool_choice : option string
}.

(** One entry of the call log: the request and what came back. *)
Definition Call : Type := (Request * option Response)%type.
Definition World : Type := list Call.

(** Computations: read and extend the call log, return or raise. *)
Definition M (A : Type) : Type := World -> Outcome A * World.

Definition ret {A} (a : A) : M A := fun w => (Ok a, w).
Definition raise {A} (e : exn) : M A := fun w => (Raise e, w).
Definition bind {A B} (m : M A) (k : A -> M B) : M B :=
  fun w => match m w with
           | (Ok a, w') => k a w'
           | (Raise e, w') => (Raise e, w')
           end.
Definition lift {A} (o : Outcome A) : M A := fun w => (o, w).

Declare Scope py_scope.
Delimit Scope py_scope with py.
Notation "x <- m ;; k" := (bind m (fun x => k))
  (at level 61, m at next level, right associativity) : py_scope.
Local Open Scope py_scope.
Local Open Scope list_scope.

Definition json_loads (arguments : option value) : M value :=
  match arguments with
  | Some v => ret v
  | None => raise JSONDecodeError
  end.

(** ** Tool schemas *)

Definition extract_key_points_schema : ToolSchema :=
  {| schema_name := "extract_key_points";
     schema_properties :=
       [("title", "string"); ("content", "string"); ("key_points", "array")];
     schema_required := ["key_points"] |}.

Definition generate_summary_schema : ToolSchema :=
  {| schema_name := "generate_summary";
     schema_properties := [("summary", "string")];
     schema_required := ["summary"] |}.

Definition create_social_media_posts_schema : ToolSchema :=
  {| schema_name := "create_social_media_posts";
     schema_properties :=
       [("twitter", "string"); ("linkedin", "string"); ("facebook", "string")];
     schema_required := ["twitter"; "linkedin"; "facebook"] |}.

Definition create_email_newsletter_schema : ToolSchema :=
  {| schema_name := "create_email_newsletter";
     schema_properties := [("subject", "string"); ("body", "string")];
     schema_required := ["subject"; "body"] |}.

Definition finish_schema : ToolSchema :=
  {| schema_name := "finish";
     schema_properties :=
       [("summary", "string"); ("social_posts", "object"); ("email", "object")];
     schema_required := ["summary"; "social_posts"; "email"] |}.

Definition define_agent_tools : list ToolSchema :=
  [extract_key_points_schema; generate_summary_schema;
   create_social_media_posts_schema; create_email_newsletter_schema;
   finish_schema].

(** ** Results of the evaluator and of the comparison *)

Record EvaluationResult : Type := {
  quality_score : float;
  feedback : string
}.

Record WorkflowResult : Type := {
  wf_summary : value;
  wf_social_media : value;
  wf_email : value
}.

Record PipelineEval : Type := {
  eval_summary : EvaluationResult;
  eval_social : EvaluationResult;
  eval_email : EvaluationResult
}.

Record Comparison : Type := {
  reflexion_eval : PipelineEval;
  agent_eval : PipelineEval
}.

(** The quality threshold of the reflexion loop, [score >= 0.8]. *)
Definition threshold : float := 0.8%float.
Definition meets_threshold (score : float) : bool := PrimFloat.leb threshold score.

(** Which function issued a logged request: every call site has its own
    system prompt. *)
Definition system_prompt (r : Request) : option text :=
  match req_messages r with
  | Msg "system" body :: _ => Some body
  | _ => None
  end.

Definition evaluate_prompt : string := "Evaluate quality and give feedback.".
Definition improve_prompt : string := "Improve content based on feedback.".
Definition extract_prompt : string := "Extract key points from blog posts.".
Definition summary_prompt : string := "Summarize given points.".
Definition social_prompt : string := "Create platform-specific social media posts.".
Definition newsletter_prompt : string := "Write a newsletter email.".

Definition has_prompt (p : string) (c : Call) : bool :=
  match system_prompt (fst c) with
  | Some [Lit s] => String.eqb s p
  | _ => false
  end.

Definition count_calls (p : string) (calls : list Call) : nat :=
  List.length (filter (has_prompt p) calls).

(** The keyword arguments [call_llm] passes to the client. [tools] and
    [tool_choice] are passed when given: an empty list stands for no tools. *)
Definition request (messages : list message) (tools : list ToolSchema)
    (tool_choice : option string) : Request :=
  {| req_messages := messages; req_tools := tools; req_tool_choice := tool_choice |}.

(** The conversations of the evaluator and of the improve step. *)
Definition evaluate_messages (content : fragment) (content_type : string)
  : list message :=
  [Msg "system" [Lit evaluate_prompt];
   Msg "user" [Lit "Evaluate this "; Lit content_type; Lit ":"; Lit nl; content]].

Definition improve_messages (content : value) (fb : string) : list message :=
  [Msg "system" [Lit improve_prompt];
   Msg "user" [Lit "Feedback: "; Lit fb; Lit nl; Lit "Content: "; Fmt content]].

(** [kwargs.pop(key, dflt)] for a keyword that is given or not. *)
Definition kwargs_pop (given : option string) (dflt : string) : string :=
  match given with
  | Some t => t
  | None => dflt
  end.

(** ** The program *)

Section Lab5.

(** The completion service: the calls so far and the request determine the
    response; [None] is a call on which the client raised. *)
Variable llm : World -> Request -> option Response.

(** What [json.load] reads from [sample_blog_post.json]; [None] when opening
    or parsing the file fails. *)
Variable sample_file : option value.

Definition call_llm (messages : list message) (tools : list ToolSchema)
    (tool_choice : option string) : M (option Response) :=
  fun w =>
    let req := request messages tools tool_choice in
    let res := llm w req in
    (Ok res, w ++ [(req, res)]).

Definition get_sample_blog_post : value :=
  match sample_file with
  | Some v => v
  | None => VNone
  end.

(** *** Task functions *)

Definition task_extract_key_points (blog_post : value) : M value :=
  title <- lift (subscript blog_post "title") ;;
  body <- lift (subscript blog_post "content") ;;
  let messages :=
    [Msg "system" [Lit extract_prompt];
     Msg "user" [Lit "Title: "; Fmt title; Lit nl; Lit "Content: "; Fmt body]] in
  res <- call_llm messages [extract_key_points_schema] (Some "extract_key_points") ;;
  match res with
  | Some r =>
      match msg_tool_calls r with
      | tc :: _ =>
          args <- json_loads (tc_arguments tc) ;;
          lift (dict_get args "key_points" (VList []))
      | [] => ret (VList [])
      end
  | None => ret (VList [])
  end.

Definition task_generate_summary (key_points : value) : M value :=
  bullets <- lift (bullet_lines key_points) ;;
  let messages :=
    [Msg "system" [Lit summary_prompt];
     Msg "user" (Lit "Summarize:" :: Lit nl :: bullets)] in
  res <- call_llm messages [generate_summary_schema] (Some "generate_summary") ;;
  match res with
  | Some r =>
      match msg_tool_calls r with
      | tc :: _ =>
          args <- json_loads (tc_arguments tc) ;;
          lift (dict_get args "summary" (VStr ""))
      | [] => ret (VStr "")
      end
  | None => ret (VStr "")
  end.

Definition task_create_social_media_posts (key_points blog_title : value) : M value :=
  bullets <- lift (bullet_lines key_points) ;;
  let messages :=
    [Msg "system" [Lit social_prompt];
     Msg "user" (Lit "Title: " :: Fmt blog_title :: Lit nl :: bullets)] in
  res <- call_llm messages [create_social_media_posts_schema]
           (Some "create_social_media_posts") ;;
  match res with
  | Some r =>
      match msg_tool_calls r with
      | tc :: _ => json_loads (tc_arguments tc)
      | [] => ret (VDict [])
      end
  | None => ret (VDict [])
  end.

Definition task_create_email_newsletter (blog_post summary key_points : value)
  : M value :=
  title <- lift (subscript blog_post "title") ;;
  bullets <- lift (bullet_lines key_points) ;;
  let messages :=
    [Msg "system" [Lit newsletter_prompt];
     Msg "user" (Lit "Title: " :: Fmt title :: Lit nl :: Lit "Summary: "
                 :: Fmt summary :: Lit nl :: Lit "Key Points:" :: Lit nl :: bullets)] in
  res <- call_llm messages [create_email_newsletter_schema]
           (Some "create_email_newsletter") ;;
  match res with
  | Some r =>
      match msg_tool_calls r with
      | tc :: _ => json_loads (tc_arguments tc)
      | [] => ret (VDict [])
      end
  | None => ret (VDict [])
  end.

(** *** Reflexion *)

Definition no_evaluation : EvaluationResult :=
  {| quality_score := 0.5%float; feedback := "No evaluation" |}.

(** The content enters only through the f-string of the prompt, so the
    argument is the piece it contributes there: [Fmt v] for a value [v],
    [Dumps v] for the string [json.dumps(v)].  The substring test on a
    response without text ([None]) raises. *)
Definition evaluate_content (content : fragment) (content_type : string)
  : M EvaluationResult :=
  let messages := evaluate_messages content content_type in
  res <- call_llm messages [] None ;;
  match res with
  | Some r =>
      match msg_content r with
      | Some fb =>
          ret {| quality_score :=
                   if contains "good" fb then 0.9%float else 0.6%float;
                 feedback := fb |}
      | None => raise TypeError
      end
  | None => ret no_evaluation
  end.

Definition improve_content (content : value) (fb : string) (content_type : string)
  : M value :=
  let messages := improve_messages content fb in
  res <- call_llm messages [] None ;;
  match res with
  | Some r =>
      ret (match msg_content r with Some s => VStr s | None => VNone end)
  | None => ret content
  end.

(** The [for _ in range(max_attempts)] loop of [wrapped]. *)
Fixpoint reflexion_loop (attempts : nat) (content_type : string) (content : value)
  : M value :=
  match attempts with
  | O => ret content
  | S attempts' =>
      eval_result <- evaluate_content (Fmt content) content_type ;;
      if meets_threshold (quality_score eval_result) then ret content
      else
        content' <- improve_content content (feedback eval_result) content_type ;;
        reflexion_loop attempts' content_type content'
  end.

(** The wrapper returned by [generate_with_reflexion], applied to its
    arguments: [generator_func] stands for the generator applied to the
    positional arguments; [content_type] is [None] when the keyword is not
    given, and then defaults to "content". *)
Definition generate_with_reflexion (generator_func : M value) (max_attempts : nat)
    (content_type : option string) : M value :=
  let content_type := kwargs_pop content_type "content" in
  content <- generator_func ;;
  reflexion_loop max_attempts content_type content.

Definition default_max_attempts : nat := 3.

(** *** The pipeline with reflexion *)

Definition run_workflow_with_reflexion (blog_post : value) : M WorkflowResult :=
  key_points <- task_extract_key_points blog_post ;;
  summary <- generate_with_reflexion (task_generate_summary key_points)
               default_max_attempts (Some "summary") ;;
  title <- lift (subscript blog_post "title") ;;
  sm_posts <- generate_with_reflexion
                (task_create_social_media_posts key_points title)
                default_max_attempts (Some "social_media_post") ;;
  email <- generate_with_reflexion
             (task_create_email_newsletter blog_post summary key_points)
             default_max_attempts (Some "email") ;;
  ret {| wf_summary := summary; wf_social_media := sm_posts; wf_email := email |}.

(** *** The agent *)

(** [x = arguments.get(k); if not x: x = recover] *)
Definition or_else (x : value) (recover : M value) : M value :=
  if truthy x then ret x else recover.

Definition execute_agent_tool (tool_name : string) (arguments : value) : M value :=
  let blog_post := get_sample_blog_post in
  if String.eqb tool_name "extract_key_points" then
    key_points <- task_extract_key_points blog_post ;;
    ret (VDict [("key_points", key_points)])
  else if String.eqb tool_name "generate_summary" then
    key_points <- lift (dict_get arguments "key_points" VNone) ;;
    key_points <- or_else key_points (task_extract_key_points blog_post) ;;
    summary <- task_generate_summary key_points ;;
    ret (VDict [("summary", summary)])
  else if String.eqb tool_name "create_social_media_posts" then
    key_points <- lift (dict_get arguments "key_points" VNone) ;;
    key_points <- or_else key_points (task_extract_key_points blog_post) ;;
    title <- lift (subscript blog_post "title") ;;
    task_create_social_media_posts key_points title
  else if String.eqb tool_name "create_email_newsletter" then
    key_points <- lift (dict_get arguments "key_points" VNone) ;;
    summary <- lift (dict_get arguments "summary" VNone) ;;
    key_points <- or_else key_points (task_extract_key_points blog_post) ;;
    summary <- or_else summary (task_generate_summary key_points) ;;
    task_create_email_newsletter blog_post summary key_points
  else ret (VDict []).

(** How the [for tool_call in msg.tool_calls] loop ends: by [return arguments]
    on a "finish" call, or by running out of calls with the conversation and
    the accumulator as they then are. *)
Inductive turn_result : Type :=
| Finished (arguments : value)
| Continue (messages : list message) (results : list (string * value)).

(** "Save partial results" *)
Definition save_partial (tool_name : string) (tool_result : value)
    (results : list (string * value)) : M (list (string * value)) :=
  if String.eqb tool_name "generate_summary" then
    summary <- lift (dict_get tool_result "summary" VNone) ;;
    ret (dict_set results "summary" summary)
  else if String.eqb tool_name "create_social_media_posts" then
    ret (dict_set results "social_posts" tool_result)
  else if String.eqb tool_name "create_email_newsletter" then
    ret (dict_set results "email" tool_result)
  else ret results.

Definition tool_message (tool_call : ToolCall) (tool_result : value) : message :=
  ToolMsg (tc_id tool_call) (tc_name tool_call)
    (match tool_result with
     | VDict _ => [Dumps tool_result]
     | _ => [Fmt tool_result]
     end).

Fixpoint run_tool_calls (tool_calls : list ToolCall) (messages : list message)
    (results : list (string * value)) : M turn_result :=
  match tool_calls with
  | [] => ret (Continue messages results)
  | tool_call :: rest =>
      let tool_name := tc_name tool_call in
      arguments <- json_loads (tc_arguments tool_call) ;;
      if String.eqb tool_name "finish" then ret (Finished arguments)
      else
        tool_result <- execute_agent_tool tool_name arguments ;;
        results <- save_partial tool_name tool_result results ;;
        run_tool_calls rest (messages ++ [tool_message tool_call tool_result]) results
  end.

Definition llm_call_failed : value := VDict [("error", VStr "LLM call failed")].

(** The [for i in range(max_iterations)] loop. *)
Fixpoint agent_loop (iterations : nat) (messages : list message)
    (results : list (string * value)) : M value :=
  match iterations with
  | O => ret (VDict results)
  | S iterations' =>
      response <- call_llm messages define_agent_tools None ;;
      match response with
      | None => ret llm_call_failed
      | Some msg =>
          let messages := messages ++ [Assistant msg] in
          match msg_tool_calls msg with
          | [] => ret (VDict results)
          | tool_calls =>
              turn <- run_tool_calls tool_calls messages results ;;
              match turn with
              | Finished arguments => ret arguments
              | Continue messages results => agent_loop iterations' messages results
              end
          end
      end
  end.

Definition agent_instructions : text :=
  [Lit "You are a Content Repurposing Agent. Your job is to take a blog post and repurpose it into:"; Lit nl;
   Lit "1. Extracted key points"; Lit nl;
   Lit "2. A concise summary"; Lit nl;
   Lit "3. Social media posts"; Lit nl;
   Lit "4. An email newsletter"; Lit nl;
   Lit "Use the tools provided, and when you're done, call the 'finish' tool with all the final results."].

(** The conversation the agent starts from, for a blog post with the given
    title and content. *)
Definition initial_conversation (title body : value) : list message :=
  [Msg "system" agent_instructions;
   Msg "user" [Lit "Blog:"; Lit nl; Lit nl; Lit "Title: "; Fmt title;
               Lit nl; Lit nl; Lit "Content: "; Fmt body]].

Definition initial_results : list (string * value) :=
  [("summary", VNone); ("social_posts", VNone); ("email", VNone)].

Definition max_iterations : nat := 20.

Definition run_agent_workflow (blog_post : value) : M value :=
  title <- lift (subscript blog_post "title") ;;
  body <- lift (subscript blog_post "content") ;;
  let messages := initial_conversation title body in
  agent_loop max_iterations messages initial_results.

(** *** The comparison *)

(** The six evaluations of [compare_workflows], in the order in which the
    dictionary display evaluates them. [json.dumps(x)] is a string; as the
    content of an evaluation it is the piece [Dumps x] of the prompt. *)
Definition compare_outputs (reflexion_output : WorkflowResult) (agent_output : value)
  : M Comparison :=
  r_summary <- evaluate_content (Fmt (wf_summary reflexion_output)) "summary" ;;
  r_social <- evaluate_content (Dumps (wf_social_media reflexion_output))
                "social_media_post" ;;
  r_email <- evaluate_content (Dumps (wf_email reflexion_output)) "email" ;;
  a <- lift (dict_get agent_output "summary" (VStr "")) ;;
  a_summary <- evaluate_content (Fmt a) "summary" ;;
  a <- lift (dict_get agent_output "social_posts" (VDict [])) ;;
  a_social <- evaluate_content (Dumps a) "social_media_post" ;;
  a <- lift (dict_get agent_output "email" (VDict [])) ;;
  a_email <- evaluate_content (Dumps a) "email" ;;
  ret {| reflexion_eval :=
           {| eval_summary := r_summary; eval_social := r_social;
              eval_email := r_email |};
         agent_eval :=
           {| eval_summary := a_summary; eval_social := a_social;
              eval_email := a_email |} |}.

Definition compare_workflows (blog_post : value) : M Comparison :=
  reflexion_output <- run_workflow_with_reflexion blog_post ;;
  agent_output <- run_agent_workflow blog_post ;;
  compare_outputs reflexion_output agent_output.

End Lab5.

(** ** Reading the call log *)

(** The content the reflexion loop holds after a logged call: an improve call
    that got a response replaces it by the response text ([None] when the
    response has no text); a failed improve call and any other call leave it
    as it is. *)
Definition adopt (content : value) (c : Call) : value :=
  if has_prompt improve_prompt c then
    match snd c with
    | Some r => match msg_content r with Some s => VStr s | None => VNone end
    | None => content
    end
  else content.

Definition held_content (content : value) (calls : list Call) : value :=
  fold_left adopt calls content.

(** A blog post as the data model has it: a mapping with a title and a
    content. *)
Definition is_blog_post (v : value) : Prop :=
  exists title body,
    subscript v "title" = Ok title /\ subscript v "content" = Ok body.

(** A tool invocation whose argument text is a JSON object in which
    [key_points], when present, is an array: what the tool schemas promise
    about the one field the program iterates over. *)
Definition well_formed_call (tc : ToolCall) : bool :=
  match tc_arguments tc with
  | Some (VDict d) =>
      match assoc "key_points" d with
      | None | Some (VList _) => true
      | Some _ => false
      end
  | _ => false
  end.

Definition well_formed_gateway (llm : World -> Request -> option Response) : Prop :=
  forall w req r,
    llm w req = Some r -> forallb well_formed_call (msg_tool_calls r) = true.

(** The requests of the agent loop offer tools and force none; the requests
    of the content tools force one; the evaluator and the improve step offer
    none. *)
Definition is_agent_request (req : Request) : bool :=
  match req_tool_choice req, req_tools req with
  | None, _ :: _ => true
  | _, _ => false
  end.

Definition names (name : string) (tc : ToolCall) : bool :=
  String.eqb (tc_name tc) name.

(** The model asked for tool [name] in the response logged as [c]. *)
Definition invokes (name : string) (c : Call) : bool :=
  is_agent_request (fst c) &&
  match snd c with
  | Some r => existsb (names name) (msg_tool_calls r)
  | None => false
  end.

Definition agent_turns (calls : list Call) : nat :=
  List.length (filter (fun c => is_agent_request (fst c)) calls).

(** The model never asks for "finish". *)
Definition never_finishes (llm : World -> Request -> option Response) : Prop :=
  forall w req r,
    llm w req = Some r -> existsb (names "finish") (msg_tool_calls r) = false.

(** Every request of the agent loop is answered. *)
Definition agent_turns_answered (llm : World -> Request -> option Response) : Prop :=
  forall w req, is_agent_request req = true -> llm w req <> None.

(** The request of the evaluator for a content and its type. *)
Definition evaluation_request (content : fragment) (content_type : string) : Request :=
  request (evaluate_messages content content_type) [] None.

(** The evaluation the evaluator draws from the outcome of its gateway call:
    the fixed default on a failed call, the score by the substring test on
    the text of a response. *)
Definition evaluation_of (res : option Response) : EvaluationResult :=
  match res with
  | Some r =>
      match msg_content r with
      | Some fb =>
          {| quality_score := if contains "good" fb then 0.9%float else 0.6%float;
             feedback := fb |}
      | None => no_evaluation
      end
  | None => no_evaluation
  end.

(** The value of field [k] of a mapping, or [dflt] when the key is missing. *)
Definition field_or (d : list (string * value)) (k : string) (dflt : value) : value :=
  match assoc k d with
  | Some x => x
  | None => dflt
  end.

(** Calls none of which is a request of the agent loop. *)
Definition quiet (calls : list Call) : Prop :=
  Forall (fun c => is_agent_request (fst c) = false) calls.

(** The accumulator of partial results, by its three fields. *)
Definition partial_results (summary social_posts email : value)
  : list (string * value) :=
  [("summary", summary); ("social_posts", social_posts); ("email", email)].

(** The log was extended by one call, which forced tool [choice]. *)
Definition one_call (choice : string) (calls : list Call) : Prop :=
  exists c, calls = [c] /\ req_tool_choice (fst c) = Some choice.

(** [adds m n]: from any log, running [m] appends at most [n] calls to it,
    whether [m] returns or raises. *)
Definition adds {A} (m : M A) (n : nat) : Prop :=
  forall w, exists calls, snd (m w) = w ++ calls /\ List.length calls <= n.

(** [returns m w Q]: from log [w], [m] returns a value [a] and appends calls
    [calls] with [Q a calls]. *)
Definition returns {A} (m : M A) (w : World) (Q : A -> list Call -> Prop) : Prop :=
  exists a calls, m w = (Ok a, w ++ calls) /\ Q a calls.

(** A gateway call that failed, or whose response has no tool invocation
    ([tool_calls] is [None] or empty). *)
Definition no_invocation (res : option Response) : Prop :=
  match res with
  | None => True
  | Some r => msg_tool_calls r = []
  end.

(** The service answers the evaluator's requests, which offer no tools, with
    text whenever it answers them. *)
Definition evaluations_have_text (llm : World -> Request -> option Response) : Prop :=
  forall w req r,
    llm w req = Some r ->
    system_prompt req = Some [Lit evaluate_prompt] ->
    req_tools req = [] ->
    msg_content r <> None.

(** [quietly m]: whatever happens, [m] appends to the log only calls that are
    not requests of the agent loop. *)
Definition quietly {A} (m : M A) : Prop :=
  forall w, exists calls, snd (m w) = w ++ calls /\ quiet calls.

(** [extends l l']: the conversation [l'] is [l] with messages appended. *)
Definition extends (l l' : list message) : Prop :=
  exists more, l' = l ++ more.

(** The conversations sent with the requests of the agent loop, in the order
    of the log. *)
Definition agent_conversations (calls : list Call) : list (list message) :=
  map (fun c => req_messages (fst c))
      (filter (fun c => is_agent_request (fst c)) calls).

(** Each conversation extends the one before it, the first one [start]. *)
Fixpoint append_only (start : list message) (conversations : list (list message))
  : Prop :=
  match conversations with
  | [] => True
  | m :: rest => extends start m /\ append_only m rest
  end.

(** [v] is the decoded argument text of a "finish" invocation in a logged
    response to a request of the agent loop. *)
Definition finish_arguments_in (calls : list Call) (v : value) : Prop :=
  exists c r tc,
    In c calls /\ is_agent_request (fst c) = true /\ snd c = Some r
    /\ In tc (msg_tool_calls r) /\ tc_name tc = "finish"
    /\ tc_arguments tc = Some v.

(** The ways an agent run ends: the error mapping after a failed request of
    the agent loop, which is then the last call; the accumulator with its
    three fields; the arguments of a "finish" invocation; an exception. *)
Definition agent_outcome (outcome : Outcome value) (calls : list Call) : Prop :=
  (outcome = Ok (VDict [("error", VStr "LLM call failed")])
   /\ exists calls' req,
        calls = calls' ++ [(req, None)] /\ is_agent_request req = true)
  \/ (exists s p e, outcome = Ok (VDict (partial_results s p e)))
  \/ (exists v, outcome = Ok v /\ finish_arguments_in calls v)
  \/ (exists e, outcome = Raise e).

(** The invocation a tool message answers: its id and the name of the tool. *)
Definition tool_message_header (m : message) : option (string * string) :=
  match m with
  | ToolMsg tool_call_id name _ => Some (tool_call_id, name)
  | _ => None
  end.

(** A value that is a mapping. *)
Definition is_mapping (v : value) : bool :=
  match v with
  | VDict _ => true
  | _ => false
  end.

(** The [key_points] of an argument mapping as the dispatcher reads them:
    [None] when the key is missing. *)
Definition key_points_of (arguments : list (string * value)) : value :=
  field_or arguments "key_points" VNone.

(** *** What the tools produced

    [dispatched llm sample_file tool_calls w w' produced]: the tools that the
    invocations [tool_calls] ask for, run one after the other from log [w],
    all returned; they left the log [w'], and [produced] pairs the name of
    each tool with what it returned, in the order of the invocations. *)
Inductive dispatched (llm : World -> Request -> option Response)
    (sample_file : option value)
  : list ToolCall -> World -> World -> list (string * value) -> Prop :=
| dispatched_none w : dispatched llm sample_file [] w w []
| dispatched_next tool_call rest arguments tool_result w w1 w2 produced :
    tc_arguments tool_call = Some arguments ->
    execute_agent_tool llm sample_file (tc_name tool_call) arguments w
      = (Ok tool_result, w1) ->
    dispatched llm sample_file rest w1 w2 produced ->
    dispatched llm sample_file (tool_call :: rest) w w2
      ((tc_name tool_call, tool_result) :: produced).

(** [turns llm sample_file w calls produced]: [calls] are the calls of whole
    turns of the agent loop made from log [w]: in each turn a request of the
    agent loop that the service answered, then the calls of the tools the
    response asks for.  [produced] are the results of these tools over all
    the turns, in order. *)
Inductive turns (llm : World -> Request -> option Response)
    (sample_file : option value)
  : World -> list Call -> list (string * value) -> Prop :=
| turns_none w : turns llm sample_file w [] []
| turns_next w req r calls1 produced1 calls2 produced2 :
    is_agent_request req = true ->
    llm w req = Some r ->
    dispatched llm sample_file (msg_tool_calls r) (w ++ [(req, Some r)])
      ((w ++ [(req, Some r)]) ++ calls1) produced1 ->
    turns llm sample_file ((w ++ [(req, Some r)]) ++ calls1) calls2 produced2 ->
    turns llm sample_file w ((req, Some r) :: calls1 ++ calls2)
      (produced1 ++ produced2).

(** What the last run of tool [name] returned, if the tool ran. *)
Fixpoint latest (name : string) (produced : list (string * value)) : option value :=
  match produced with
  | [] => None
  | (n, tool_result) :: rest =>
      match latest name rest with
      | Some x => Some x
      | None => if String.eqb n name then Some tool_result else None
      end
  end.

(** The last call is a request of the agent loop that was answered without
    any tool invocation: the [break] of the loop. *)
Definition ends_in_prose (calls : list Call) : Prop :=
  exists calls' req r,
    calls = calls' ++ [(req, Some r)]
    /\ is_agent_request req = true /\ msg_tool_calls r = [].

(** ** Sample runs

    Concrete gateways and inputs on which the program is run below. *)

Module Sample.

Definition answer_text (s : string) : Response :=
  {| msg_content := Some s; msg_tool_calls := [] |}.

Definition answer_calls (tool_calls : list ToolCall) : Response :=
  {| msg_content := None; msg_tool_calls := tool_calls |}.

Definition invocation (name : string) (arguments : list (string * value)) : ToolCall :=
  {| tc_id := "call"; tc_name := name; tc_arguments := Some (VDict arguments) |}.

(** A gateway that is down. *)
Definition offline : World -> Request -> option Response :=
  fun _ _ => None.

(** A gateway that answers everything with the same text. *)
Definition critic (s : string) : World -> Request -> option Response :=
  fun _ _ => Some (answer_text s).

(** What the stub gateway returns when a content tool is forced. *)
Definition stub_invocations (name : string) : list ToolCall :=
  if String.eqb name "extract_key_points" then
    [invocation "extract_key_points" [("key_points", VList [VStr "a"; VStr "b"])]]
  else if String.eqb name "generate_summary" then
    [invocation "generate_summary" [("summary", VStr "S")]]
  else if String.eqb name "create_social_media_posts" then
    [invocation "create_social_media_posts"
       [("twitter", VStr "x"); ("linkedin", VStr "y"); ("facebook", VStr "z")]]
  else if String.eqb name "create_email_newsletter" then
    [invocation "create_email_newsletter"
       [("subject", VStr "Sub"); ("body", VStr "Body")]]
  else [].

(** A stub gateway: free-form requests are praised, a forced content tool is
    invoked with fixed arguments, and the requests of the agent loop are
    answered by [agent]. *)
Definition stub (agent : World -> option Response) : World -> Request -> option Response :=
  fun w req =>
    match req_tools req with
    | [] => Some (answer_text "good")
    | _ :: _ =>
        match req_tool_choice req with
        | Some name => Some (answer_calls (stub_invocations name))
        | None => agent w
        end
    end.

Definition the_post : value := VDict [("title", VStr "T"); ("content", VStr "C")].

Definition finish_arguments : value :=
  VDict [("summary", VStr "S"); ("social_posts", VDict []); ("email", VDict [])].

Definition finish_call : ToolCall :=
  {| tc_id := "call"; tc_name := "finish"; tc_arguments := Some finish_arguments |}.

(** The model finishes at once. *)
Definition finish_first : World -> option Response :=
  fun _ => Some (answer_calls [finish_call]).

(** The model asks for the key points and finishes in the same response. *)
Definition finish_after_extract : World -> option Response :=
  fun _ => Some (answer_calls [invocation "extract_key_points" []; finish_call]).

(** The model asks for all four content tools in every response, passing no
    arguments, and never finishes. *)
Definition all_at_once : World -> option Response :=
  fun _ => Some (answer_calls
                   [invocation "extract_key_points" [];
                    invocation "generate_summary" [];
                    invocation "create_social_media_posts" [];
                    invocation "create_email_newsletter" []]).

(** The model asks for a summary in every response and never finishes. *)
Definition summarizer : World -> option Response :=
  fun _ => Some (answer_calls [invocation "generate_summary" []]).

Definition some_results : WorkflowResult :=
  {| wf_summary := VStr "S";
     wf_social_media := VDict [("twitter", VStr "x")];
     wf_email := VDict [("subject", VStr "Sub"); ("body", VStr "Body")] |}.

(** A gateway that answers everything with the same response. *)
Definition always (r : Response) : World -> Request -> option Response :=
  fun _ _ => Some r.

(** An invocation whose argument text is the JSON list [[]], and one whose
    argument text is not JSON. *)
Definition list_call : ToolCall :=
  {| tc_id := "call"; tc_name := "generate_summary"; tc_arguments := Some (VList []) |}.

Definition broken_call : ToolCall :=
  {| tc_id := "call"; tc_name := "generate_summary"; tc_arguments := None |}.

(** The model asks for a summary, then the gateway goes down. *)
Definition flaky : World -> option Response :=
  fun w =>
    if Nat.ltb (List.length w) 3 then Some (answer_calls [invocation "generate_summary" []])
    else None.

(** A blog post without a title. *)
Definition untitled : value := VDict [("content", VStr "C")].

(** The model answers in prose and asks for no tool. *)
Definition idle : World -> option Response :=
  fun _ => Some (answer_text "Done.").

(** The model finishes at once; the argument text of the invocation is the
    JSON list [[]]. *)
Definition finish_with_list : World -> option Response :=
  fun _ => Some (answer_calls
                   [{| tc_id := "call"; tc_name := "finish";
                       tc_arguments := Some (VList []) |}]).

(** The model asks for a summary of the key points it passes along. *)
Definition summary_of_points : Response :=
  answer_calls [invocation "generate_summary" [("key_points", VList [VStr "a"])]].

(** The model asks for a summary in each of its first [n] turns; from then on
    its requests get [late]. *)
Definition after_turns (n : nat) (late : option Response) : World -> option Response :=
  fun w => if Nat.ltb (agent_turns w) n then Some summary_of_points else late.

End Sample.

(** * Properties *)

(** ** Substring test *)

Lemma starts_with_spec (needle hay : string) :
  starts_with needle hay = true <-> exists rest, hay = (needle ++ rest)%string.
Proof.
  revert hay; induction needle as [|a n IH]; intros hay; simpl.
  - split; [intros _; now exists hay | reflexivity].
  - destruct hay as [|b h].
    + split; [discriminate | intros [rest H]; discriminate].
    + rewrite andb_true_iff, Ascii.eqb_eq, IH. split.
      * intros [-> [rest ->]]. now exists rest.
      * intros [rest H]. injection H as -> ->. split; [reflexivity | now exists rest].
Qed.

Lemma contains_spec (needle hay : string) :
  contains needle hay = true <->
  exists before after, hay = (before ++ needle ++ after)%string.
Proof.
  induction hay as [|c h IH].
  - simpl. rewrite orb_false_r, starts_with_spec. split.
    + intros [rest H]. now exists ""%string, rest.
    + intros [before [after H]]. destruct before; simpl in H.
      * now exists after.
      * discriminate.
  - simpl. rewrite orb_true_iff, starts_with_spec, IH. split.
    + intros [[rest H] | [before [after H]]].
      * now exists ""%string, rest.
      * exists (String c before), after. simpl. now rewrite H.
    + intros [before [after H]]. destruct before as [|b before]; simpl in H.
      * left. now exists after.
      * right. injection H as _ H. now exists before, after.
Qed.

(** ** The log only grows *)

Lemma adds_ret {A} (a : A) n : adds (ret a) n.
Proof. intros w. exists []. simpl. rewrite app_nil_r. split; [reflexivity | lia]. Qed.

Lemma adds_raise {A} e n : adds (@raise A e) n.
Proof. intros w. exists []. simpl. rewrite app_nil_r. split; [reflexivity | lia]. Qed.

Lemma adds_lift {A} (o : Outcome A) n : adds (lift o) n.
Proof. intros w. exists []. simpl. rewrite app_nil_r. split; [reflexivity | lia]. Qed.

Lemma adds_bind {A B} (m : M A) (k : A -> M B) n p q :
  adds m n -> (forall a, adds (k a) p) -> n + p <= q -> adds (bind m k) q.
Proof.
  intros Hm Hk Hq w. unfold bind.
  destruct (Hm w) as [c1 [E1 L1]]. destruct (m w) as [[a|e] w1]; simpl in E1; subst w1.
  - destruct (Hk a (w ++ c1)) as [c2 [E2 L2]]. exists (c1 ++ c2).
    rewrite E2, app_assoc, length_app. split; [reflexivity | lia].
  - exists c1. simpl. split; [reflexivity | lia].
Qed.

Lemma adds_weaken {A} (m : M A) n p : adds m n -> n <= p -> adds m p.
Proof.
  intros H L w. destruct (H w) as [c [E Lc]]. exists c. split; [exact E | lia].
Qed.

Lemma adds_call_llm llm messages tools choice :
  adds (call_llm llm messages tools choice) 1.
Proof. intros w. eexists. simpl. split; [reflexivity | simpl; lia]. Qed.

Lemma adds_json_loads a n : adds (json_loads a) n.
Proof. destruct a; [apply adds_ret | apply adds_raise]. Qed.

Lemma adds_bind_pure {A B} (m : M A) (k : A -> M B) q :
  adds m 0 -> (forall a, adds (k a) q) -> adds (bind m k) q.
Proof. intros Hm Hk. apply (adds_bind m k 0 q q); [exact Hm | exact Hk | lia]. Qed.

Lemma adds_bind_n {A B} n (m : M A) (k : A -> M B) q :
  adds m n -> (forall a, adds (k a) (q - n)) -> n <= q -> adds (bind m k) q.
Proof. intros Hm Hk L. apply (adds_bind m k n (q - n) q); [exact Hm | exact Hk | lia]. Qed.

Create HintDb adds.
#[local] Hint Resolve adds_ret adds_raise adds_lift adds_call_llm adds_json_loads : adds.

(** Bound the calls of a computation by walking through its binds; [n] is
    the bound used for the sub-computations that call the gateway. *)
Ltac adds_walk n :=
  repeat first
    [ apply adds_ret | apply adds_raise | apply adds_lift | apply adds_json_loads
    | apply adds_bind_pure; [ solve [auto with adds] | intros ]
    | apply (adds_bind_n n); [ solve [eauto with adds] | intros; simpl | simpl; lia ]
    | match goal with
      | |- adds (match ?x with _ => _ end) _ => destruct x
      end ].

Section Bounds.

Variable llm : World -> Request -> option Response.
Variable sample_file : option value.

Lemma adds_task_extract_key_points blog_post :
  adds (task_extract_key_points llm blog_post) 1.
Proof. unfold task_extract_key_points. adds_walk 1. Qed.

Lemma adds_task_generate_summary key_points :
  adds (task_generate_summary llm key_points) 1.
Proof. unfold task_generate_summary. adds_walk 1. Qed.

Lemma adds_task_create_social_media_posts key_points title :
  adds (task_create_social_media_posts llm key_points title) 1.
Proof. unfold task_create_social_media_posts. adds_walk 1. Qed.

Lemma adds_task_create_email_newsletter blog_post summary key_points :
  adds (task_create_email_newsletter llm blog_post summary key_points) 1.
Proof. unfold task_create_email_newsletter. adds_walk 1. Qed.

#[local] Hint Resolve adds_task_extract_key_points adds_task_generate_summary
  adds_task_create_social_media_posts adds_task_create_email_newsletter : adds.

Lemma adds_or_else x recover n : adds recover n -> adds (or_else x recover) n.
Proof. intros H. unfold or_else. destruct (truthy x); [apply adds_ret | exact H]. Qed.

#[local] Hint Resolve adds_or_else : adds.

(** One dispatch costs at most three gateway calls: the tool's own call and
    up to two calls that re-derive missing inputs. *)
Lemma adds_execute_agent_tool tool_name arguments :
  adds (execute_agent_tool llm sample_file tool_name arguments) 3.
Proof.
  unfold execute_agent_tool.
  repeat match goal with
         | |- adds (if ?c then _ else _) _ => destruct c
         end; adds_walk 1.
Qed.

Lemma adds_save_partial tool_name tool_result results :
  adds (save_partial tool_name tool_result results) 0.
Proof.
  unfold save_partial.
  repeat match goal with
         | |- adds (if ?c then _ else _) _ => destruct c
         end; adds_walk 0.
Qed.

Lemma adds_run_tool_calls tool_calls :
  forall messages results,
    adds (run_tool_calls llm sample_file tool_calls messages results)
         (3 * List.length tool_calls).
Proof.
  induction tool_calls as [|tc rest IH]; intros messages results.
  - apply adds_ret.
  - cbn [run_tool_calls List.length].
    apply adds_bind_pure; [apply adds_json_loads | intros arguments].
    destruct (String.eqb (tc_name tc) "finish"); [apply adds_ret |].
    apply (adds_bind_n 3); [apply adds_execute_agent_tool | intros tool_result | lia].
    apply adds_bind_pure; [apply adds_save_partial | intros results'].
    eapply adds_weaken; [apply IH | lia].
Qed.

(** With at most [m] tool invocations in any one response, an agent loop of
    [n] iterations makes at most [n * (1 + 3 * m)] gateway calls. *)
Lemma adds_agent_loop m :
  (forall w req r, llm w req = Some r -> List.length (msg_tool_calls r) <= m) ->
  forall n messages results,
    adds (agent_loop llm sample_file n messages results) (n * (1 + 3 * m)).
Proof.
  intros Hm. induction n as [|n IH]; intros messages results.
  - apply adds_ret.
  - intros w. cbn [agent_loop]. unfold bind at 1. unfold call_llm at 1.
    set (req := request messages define_agent_tools None).
    destruct (llm w req) as [r|] eqn:E.
    2:{ exists [(req, None)]. simpl. split; [reflexivity | simpl; lia]. }
    pose proof (Hm _ _ _ E) as Hr.
    destruct (msg_tool_calls r) as [|tc tcs] eqn:T.
    { exists [(req, Some r)]. simpl. split; [reflexivity | simpl; lia]. }
    rewrite <- T in *. unfold bind.
    destruct (adds_run_tool_calls (msg_tool_calls r) (messages ++ [Assistant r])
                results (w ++ [(req, Some r)])) as [c2 [E2 L2]].
    destruct (run_tool_calls llm sample_file (msg_tool_calls r) _ results _)
      as [[[arguments|messages' results']|e] w2]; simpl in E2; subst w2.
    + exists ((req, Some r) :: c2). rewrite <- app_assoc.
      split; [reflexivity | simpl; nia].
    + destruct (IH messages' results' ((w ++ [(req, Some r)]) ++ c2)) as [c3 [E3 L3]].
      exists ((req, Some r) :: c2 ++ c3). rewrite E3, <- !app_assoc.
      split; [reflexivity | simpl; rewrite length_app; nia].
    + exists ((req, Some r) :: c2). rewrite <- app_assoc.
      split; [reflexivity | simpl; nia].
Qed.

End Bounds.

(** ** The evaluator and the improve step *)

Section Evaluator.

Variable llm : World -> Request -> option Response.

Lemma evaluate_content_run content content_type w :
  evaluate_content llm content content_type w =
  let req := request (evaluate_messages content content_type) [] None in
  (match llm w req with
   | Some r =>
       match msg_content r with
       | Some fb =>
           Ok {| quality_score := if contains "good" fb then 0.9%float else 0.6%float;
                 feedback := fb |}
       | None => Raise TypeError
       end
   | None => Ok no_evaluation
   end, w ++ [(req, llm w req)]).
Proof.
  unfold evaluate_content, bind, call_llm. cbv zeta.
  destruct (llm w _) as [r|]; [destruct (msg_content r) |]; reflexivity.
Qed.

Lemma improve_content_run content fb content_type w :
  improve_content llm content fb content_type w =
  let req := request (improve_messages content fb) [] None in
  (Ok (match llm w req with
       | Some r => match msg_content r with Some s => VStr s | None => VNone end
       | None => content
       end), w ++ [(req, llm w req)]).
Proof.
  unfold improve_content, bind, call_llm. cbv zeta.
  destruct (llm w _) as [r|]; reflexivity.
Qed.

(** C7. When the evaluator's gateway call fails, [evaluate_content] returns
    the fixed result with score 0.5 and feedback "No evaluation"; it does not
    raise, and the failed call is the only one it makes. *)
Theorem evaluate_content_gateway_failure content content_type w :
  llm w (request (evaluate_messages content content_type) [] None) = None ->
  evaluate_content llm content content_type w =
  (Ok {| quality_score := 0.5%float; feedback := "No evaluation" |},
   w ++ [(request (evaluate_messages content content_type) [] None, None)]).
Proof.
  intros H. rewrite evaluate_content_run. cbv zeta. rewrite H. reflexivity.
Qed.

(** C10. When the evaluator's gateway call succeeds with feedback text [t],
    the score is 0.9 if "good" occurs in [t] as a substring and 0.6
    otherwise, a function of [t] alone; the threshold 0.8 is met exactly when
    [t] contains "good"; and every score [evaluate_content] returns, on any
    input and any gateway answer, is one of 0.5, 0.6 and 0.9. *)
Theorem evaluate_content_score content content_type w r t :
  llm w (request (evaluate_messages content content_type) [] None) = Some r ->
  msg_content r = Some t ->
  let score := if contains "good" t then 0.9%float else 0.6%float in
  evaluate_content llm content content_type w =
    (Ok {| quality_score := score; feedback := t |},
     w ++ [(request (evaluate_messages content content_type) [] None, Some r)])
  /\ (contains "good" t = true <->
      exists before after, t = (before ++ "good" ++ after)%string)
  /\ meets_threshold score = contains "good" t
  /\ (forall content' content_type' w' result w'',
        evaluate_content llm content' content_type' w' = (Ok result, w'') ->
        quality_score result = 0.5%float \/ quality_score result = 0.6%float
        \/ quality_score result = 0.9%float).
Proof.
  intros H T score. repeat split.
  - rewrite evaluate_content_run. cbv zeta. rewrite H, T. reflexivity.
  - apply contains_spec.
  - apply contains_spec.
  - subst score. destruct (contains "good" t); reflexivity.
  - intros content' content_type' w' result w'' E.
    rewrite evaluate_content_run in E. cbv zeta in E.
    destruct (llm w' _) as [r'|].
    + destruct (msg_content r') as [fb|]; [| discriminate].
      injection E as <- _. simpl. destruct (contains "good" fb); auto.
    + injection E as <- _. simpl. auto.
Qed.

End Evaluator.

(** ** The reflexion loop *)

Lemma count_calls_cons p c calls :
  count_calls p (c :: calls) =
  (if has_prompt p c then 1 else 0) + count_calls p calls.
Proof. unfold count_calls. simpl. destruct (has_prompt p c); reflexivity. Qed.

Lemma evaluate_call_is_evaluate content content_type res :
  has_prompt evaluate_prompt
    (request (evaluate_messages content content_type) [] None, res) = true
  /\ has_prompt improve_prompt
    (request (evaluate_messages content content_type) [] None, res) = false.
Proof. split; reflexivity. Qed.

Lemma improve_call_is_improve content fb res :
  has_prompt improve_prompt (request (improve_messages content fb) [] None, res) = true
  /\ has_prompt evaluate_prompt
    (request (improve_messages content fb) [] None, res) = false.
Proof. split; reflexivity. Qed.

Section Reflexion.

Variable llm : World -> Request -> option Response.

(** Whatever happens, [k] attempts make at most [2 * k] gateway calls. *)
Lemma adds_reflexion_loop content_type :
  forall k content, adds (reflexion_loop llm k content_type content) (2 * k).
Proof.
  induction k as [|k IH]; intros content; cbn [reflexion_loop].
  - apply adds_ret.
  - apply (adds_bind_n 1).
    + intros w. rewrite evaluate_content_run. eexists. split; [reflexivity | simpl; lia].
    + intros eval_result. destruct (meets_threshold _); [apply adds_ret |].
      apply (adds_bind_n 1).
      * intros w. rewrite improve_content_run. eexists. split; [reflexivity | simpl; lia].
      * intros content'. eapply adds_weaken; [apply IH | lia].
      * lia.
    + lia.
Qed.

(** The loop proper.  Whatever the gateway answers, [k] attempts end after at
    most [k] evaluations, each followed by at most one improve call, and
    nothing else; with evaluations answered by text the loop returns the
    content read off the log. *)
Lemma reflexion_loop_calls content_type :
  forall k content w,
  exists outcome calls,
    reflexion_loop llm k content_type content w = (outcome, w ++ calls)
    /\ count_calls evaluate_prompt calls <= k
    /\ count_calls improve_prompt calls <= count_calls evaluate_prompt calls
    /\ List.length calls =
       count_calls evaluate_prompt calls + count_calls improve_prompt calls
    /\ (evaluations_have_text llm -> outcome = Ok (held_content content calls)).
Proof.
  induction k as [|k IH]; intros content w; cbn [reflexion_loop].
  - exists (Ok content), []. unfold ret. rewrite app_nil_r. simpl.
    repeat split; first [reflexivity | lia].
  - unfold bind at 1. rewrite evaluate_content_run. cbv zeta.
    set (ereq := request (evaluate_messages (Fmt content) content_type) [] None).
    destruct (evaluate_call_is_evaluate (Fmt content) content_type (llm w ereq))
      as [Ee Ei]. fold ereq in Ee, Ei.
    assert (Hstep : forall ev,
      exists outcome calls,
        (if meets_threshold (quality_score ev) then ret content
         else bind (improve_content llm content (feedback ev) content_type)
                (fun content' => reflexion_loop llm k content_type content'))
          (w ++ [(ereq, llm w ereq)]) = (outcome, w ++ calls)
        /\ count_calls evaluate_prompt calls <= S k
        /\ count_calls improve_prompt calls <= count_calls evaluate_prompt calls
        /\ List.length calls =
           count_calls evaluate_prompt calls + count_calls improve_prompt calls
        /\ (evaluations_have_text llm -> outcome = Ok (held_content content calls))).
    { intros ev. destruct (meets_threshold (quality_score ev)).
      - exists (Ok content), [(ereq, llm w ereq)]. unfold ret.
        rewrite !count_calls_cons, Ee, Ei. unfold held_content, adopt. simpl.
        repeat split; first [reflexivity | unfold count_calls; simpl; lia].
      - unfold bind. rewrite improve_content_run. cbv zeta.
        set (ireq := request (improve_messages content (feedback ev)) [] None).
        set (ires := llm (w ++ [(ereq, llm w ereq)]) ireq).
        destruct (improve_call_is_improve content (feedback ev) ires) as [Ii Ie].
        fold ireq in Ii, Ie.
        set (content' := match ires with
                         | Some r => match msg_content r with
                                     | Some s => VStr s | None => VNone end
                         | None => content end).
        destruct (IH content' ((w ++ [(ereq, llm w ereq)]) ++ [(ireq, ires)]))
          as [outcome [calls [E [B1 [B2 [B3 B4]]]]]].
        exists outcome, ((ereq, llm w ereq) :: (ireq, ires) :: calls).
        rewrite E, <- !app_assoc. simpl.
        rewrite !count_calls_cons, Ee, Ei, Ii, Ie.
        unfold held_content in *. simpl. unfold adopt at 2 3. rewrite Ei, Ii.
        simpl. fold content'.
        repeat split; first [exact B4 | unfold count_calls in *; lia]. }
    destruct (llm w ereq) as [r|] eqn:E.
    + destruct (msg_content r) as [fb|] eqn:C; [apply Hstep |].
      exists (Raise TypeError), [(ereq, Some r)]. rewrite !count_calls_cons, Ee, Ei.
      repeat split; try (unfold count_calls; simpl; lia).
      intros Htext. destruct (Htext w ereq r E eq_refl eq_refl C).
    + apply Hstep.
Qed.

Lemma held_content_not_none calls :
  forall content,
    content <> VNone ->
    (forall call r, In call calls -> has_prompt improve_prompt call = true ->
                    snd call = Some r -> msg_content r <> None) ->
    held_content content calls <> VNone.
Proof.
  unfold held_content. induction calls as [|c calls IH]; intros content Hc Hi; simpl.
  - exact Hc.
  - apply IH.
    + unfold adopt. destruct (has_prompt improve_prompt c) eqn:P; [| exact Hc].
      destruct (snd c) as [r|] eqn:R; [| exact Hc].
      pose proof (Hi c r (or_introl eq_refl) P R) as Hr.
      destruct (msg_content r); [discriminate | congruence].
    + intros call r Hin. apply Hi. now right.
Qed.

(** C1, as the code has it.  Whatever the generator, the gateway and the
    attempt budget [k]: once the generator has returned its content, the
    wrapper ends, by returning or by raising, after at most [k] evaluations,
    each followed by at most one improve call, and nothing else.  When the
    service answers evaluation requests by text, the wrapper returns, and
    what it returns is the content held after the last of these calls: the
    text of the last improve call that was answered, or the generator's
    content when there was none.  That content is not [None] when the
    generator's content is not and every answered improve call came back with
    text. *)
Theorem generate_with_reflexion_bounded generator_func k content_type w content0 w1 :
  generator_func w = (Ok content0, w1) ->
  exists outcome calls,
    generate_with_reflexion llm generator_func k content_type w
      = (outcome, w1 ++ calls)
    /\ count_calls evaluate_prompt calls <= k
    /\ count_calls improve_prompt calls <= count_calls evaluate_prompt calls
    /\ List.length calls =
       count_calls evaluate_prompt calls + count_calls improve_prompt calls
    /\ (evaluations_have_text llm ->
        outcome = Ok (held_content content0 calls)
        /\ (content0 <> VNone ->
            (forall call r, In call calls -> has_prompt improve_prompt call = true ->
                            snd call = Some r -> msg_content r <> None) ->
            held_content content0 calls <> VNone)).
Proof.
  intros Hgen. unfold generate_with_reflexion, bind. rewrite Hgen.
  destruct (reflexion_loop_calls (kwargs_pop content_type "content") k content0 w1)
    as [outcome [calls [E [B1 [B2 [B3 B4]]]]]].
  exists outcome, calls. repeat split; try assumption.
  - now apply B4.
  - intros Hc Hi. now apply held_content_not_none.
Qed.


End Reflexion.

(** ** The content tools *)

Lemma log_not_extended (w : World) (c : Call) : w <> w ++ [c].
Proof.
  intros E. apply (f_equal (@List.length Call)) in E.
  rewrite length_app in E. simpl in E. lia.
Qed.

Lemma log_last_call (w : World) (c c' : Call) : w ++ [c] = w ++ [c'] -> c = c'.
Proof. intros E. apply app_inv_head in E. now injection E. Qed.

Lemma bullet_lines_list l : bullet_lines (VList l) = Ok (join_bullets l).
Proof. reflexivity. Qed.

Section Tools.

Variable llm : World -> Request -> option Response.

(** The shape shared by the four tools: one gateway call, then either the
    first tool invocation of the response is decoded, without further calls,
    or the default is returned. *)
Lemma call_then_default {A} messages tools choice (dflt : A)
    (decode : ToolCall -> M A) w req res :
  (forall tc w', snd (decode tc w') = w') ->
  snd (bind (call_llm llm messages tools choice)
         (fun res =>
            match res with
            | Some r =>
                match msg_tool_calls r with
                | tc :: _ => decode tc
                | [] => ret dflt
                end
            | None => ret dflt
            end) w) = w ++ [(req, res)] ->
  no_invocation res ->
  fst (bind (call_llm llm messages tools choice)
         (fun res =>
            match res with
            | Some r =>
                match msg_tool_calls r with
                | tc :: _ => decode tc
                | [] => ret dflt
                end
            | None => ret dflt
            end) w) = Ok dflt.
Proof.
  intros Hdecode. unfold bind, call_llm. cbv beta iota zeta.
  destruct (llm w (request messages tools choice)) as [r|] eqn:R.
  - destruct (msg_tool_calls r) as [|tc tcs] eqn:T.
    + reflexivity.
    + rewrite Hdecode. intros E N. apply log_last_call in E.
      injection E as _ <-. simpl in N. congruence.
  - reflexivity.
Qed.

Lemma decode_args_pure (k : value -> M value) tc w :
  (forall v w', snd (k v w') = w') ->
  snd (bind (json_loads (tc_arguments tc)) k w) = w.
Proof.
  intros Hk. unfold bind, json_loads. destruct (tc_arguments tc); simpl.
  - apply Hk.
  - reflexivity.
Qed.

(** C8. Each of the four content tools, once it has made its gateway call,
    returns its empty default when that call failed or came back without a
    tool invocation: the empty list for key points, the empty string for the
    summary, the empty mapping for the social posts and for the newsletter.
    It does not raise. *)
Theorem content_tools_default blog_post blog_title summary key_points w :
  (forall req res,
      snd (task_extract_key_points llm blog_post w) = w ++ [(req, res)] ->
      no_invocation res ->
      fst (task_extract_key_points llm blog_post w) = Ok (VList []))
  /\ (forall req res,
      snd (task_generate_summary llm key_points w) = w ++ [(req, res)] ->
      no_invocation res ->
      fst (task_generate_summary llm key_points w) = Ok (VStr ""))
  /\ (forall req res,
      snd (task_create_social_media_posts llm key_points blog_title w)
        = w ++ [(req, res)] ->
      no_invocation res ->
      fst (task_create_social_media_posts llm key_points blog_title w)
        = Ok (VDict []))
  /\ (forall req res,
      snd (task_create_email_newsletter llm blog_post summary key_points w)
        = w ++ [(req, res)] ->
      no_invocation res ->
      fst (task_create_email_newsletter llm blog_post summary key_points w)
        = Ok (VDict [])).
Proof.
  repeat split; intros req res.
  - unfold task_extract_key_points. unfold bind at 1 3, lift.
    destruct (subscript blog_post "title") as [title|e];
      [| intros E; exfalso; exact (log_not_extended _ _ E)].
    unfold bind at 1 3.
    destruct (subscript blog_post "content") as [body|e];
      [| intros E; exfalso; exact (log_not_extended _ _ E)].
    apply call_then_default. intros tc w'. apply decode_args_pure. reflexivity.
  - unfold task_generate_summary. unfold bind at 1 3, lift.
    destruct (bullet_lines key_points) as [bullets|e];
      [| intros E; exfalso; exact (log_not_extended _ _ E)].
    apply call_then_default. intros tc w'. apply decode_args_pure. reflexivity.
  - unfold task_create_social_media_posts. unfold bind at 1 2, lift.
    destruct (bullet_lines key_points) as [bullets|e];
      [| intros E; exfalso; exact (log_not_extended _ _ E)].
    apply call_then_default. intros tc w'.
    destruct (tc_arguments tc); reflexivity.
  - unfold task_create_email_newsletter. unfold bind at 1 3, lift.
    destruct (subscript blog_post "title") as [title|e];
      [| intros E; exfalso; exact (log_not_extended _ _ E)].
    unfold bind at 1 2.
    destruct (bullet_lines key_points) as [bullets|e];
      [| intros E; exfalso; exact (log_not_extended _ _ E)].
    apply call_then_default. intros tc w'.
    destruct (tc_arguments tc); reflexivity.
Qed.

(** On inputs of the expected shape the gateway call is always made, and it
    is the only one, whatever its outcome. *)
Lemma content_tools_call_once blog_post blog_title summary items w :
  is_blog_post blog_post ->
  (exists c, snd (task_extract_key_points llm blog_post w) = w ++ [c])
  /\ (exists c, snd (task_generate_summary llm (VList items) w) = w ++ [c])
  /\ (exists c, snd (task_create_social_media_posts llm (VList items) blog_title w)
                = w ++ [c])
  /\ (exists c, snd (task_create_email_newsletter llm blog_post summary
                       (VList items) w) = w ++ [c]).
Proof.
  intros [title [body [Ht Hb]]].
  unfold task_extract_key_points, task_generate_summary,
    task_create_social_media_posts, task_create_email_newsletter.
  unfold bind, lift, call_llm. rewrite Ht, Hb, bullet_lines_list.
  cbv beta iota zeta.
  repeat split;
    match goal with
    | |- context [llm w ?q] =>
        destruct (llm w q) as [r|];
        [ destruct (msg_tool_calls r) as [|tc ?];
          [| unfold json_loads; destruct (tc_arguments tc) ] |];
        eexists; reflexivity
    end.
Qed.

End Tools.

(** ** Computations that return *)

Lemma returns_ret {A} (a : A) w (Q : A -> list Call -> Prop) :
  Q a [] -> returns (ret a) w Q.
Proof. intros H. exists a, []. unfold ret. now rewrite app_nil_r. Qed.

Lemma returns_lift {A} (o : Outcome A) a w (Q : A -> list Call -> Prop) :
  o = Ok a -> Q a [] -> returns (lift o) w Q.
Proof. intros -> H. exists a, []. unfold lift. now rewrite app_nil_r. Qed.

Lemma returns_bind {A B} (m : M A) (k : A -> M B) w
    (Q1 : A -> list Call -> Prop) (Q : B -> list Call -> Prop) :
  returns m w Q1 ->
  (forall a calls, Q1 a calls ->
     returns (k a) (w ++ calls) (fun b calls' => Q b (calls ++ calls'))) ->
  returns (bind m k) w Q.
Proof.
  intros [a [calls [E H1]]] Hk.
  destruct (Hk a calls H1) as [b [calls' [E' H2]]].
  exists b, (calls ++ calls'). unfold bind. rewrite E, E', app_assoc. now split.
Qed.

Lemma returns_imp {A} (m : M A) w (Q Q' : A -> list Call -> Prop) :
  returns m w Q -> (forall a calls, Q a calls -> Q' a calls) -> returns m w Q'.
Proof. intros [a [calls [E H]]] HQ. exists a, calls. split; auto. Qed.

Section WellFormed.

Variable llm : World -> Request -> option Response.
Hypothesis well_formed : well_formed_gateway llm.

(** The first invocation of an answered request decodes to a mapping whose
    [key_points], if any, is a list. *)
Lemma first_invocation_decodes w req r tc rest :
  llm w req = Some r ->
  msg_tool_calls r = tc :: rest ->
  exists d, tc_arguments tc = Some (VDict d)
            /\ (assoc "key_points" d = None
                \/ exists l, assoc "key_points" d = Some (VList l)).
Proof.
  intros R T. pose proof (well_formed w req r R) as H. rewrite T in H.
  simpl in H. apply andb_true_iff in H. destruct H as [H _].
  unfold well_formed_call in H.
  destruct (tc_arguments tc) as [[| | | | | |d]|]; try discriminate.
  exists d. split; [reflexivity |].
  destruct (assoc "key_points" d) as [[| | | | |l|]|]; try discriminate.
  - right. now exists l.
  - now left.
Qed.

Lemma task_extract_key_points_returns blog_post w :
  is_blog_post blog_post ->
  returns (task_extract_key_points llm blog_post) w
    (fun v calls => (exists l, v = VList l) /\ one_call "extract_key_points" calls).
Proof.
  intros [title [body [Ht Hb]]].
  unfold returns, task_extract_key_points, bind, lift, call_llm.
  rewrite Ht, Hb. cbv beta iota zeta.
  match goal with |- context [llm w ?q] => set (req := q) end.
  assert (Hone : one_call "extract_key_points" [(req, llm w req)])
    by (eexists; split; reflexivity).
  destruct (llm w req) as [r|] eqn:R.
  - destruct (msg_tool_calls r) as [|tc rest] eqn:T.
    + exists (VList []), [(req, Some r)]. repeat split; eauto.
    + destruct (first_invocation_decodes w req r tc rest R T) as [d [D K]].
      rewrite D. simpl. destruct K as [K | [l K]]; rewrite K.
      * exists (VList []), [(req, Some r)]. repeat split; eauto.
      * exists (VList l), [(req, Some r)]. repeat split; eauto.
  - exists (VList []), [(req, None)]. repeat split; eauto.
Qed.

Lemma task_generate_summary_returns l w :
  returns (task_generate_summary llm (VList l)) w
    (fun _ calls => one_call "generate_summary" calls).
Proof.
  unfold returns, task_generate_summary, bind, lift, call_llm.
  rewrite bullet_lines_list. cbv beta iota zeta.
  match goal with |- context [llm w ?q] => set (req := q) end.
  assert (Hone : one_call "generate_summary" [(req, llm w req)])
    by (eexists; split; reflexivity).
  destruct (llm w req) as [r|] eqn:R.
  - destruct (msg_tool_calls r) as [|tc rest] eqn:T.
    + eexists _, [(req, Some r)]. split; [reflexivity | exact Hone].
    + destruct (first_invocation_decodes w req r tc rest R T) as [d [D _]].
      rewrite D. simpl. destruct (assoc "summary" d);
        (eexists _, [(req, Some r)]; split; [reflexivity | exact Hone]).
  - eexists _, [(req, None)]. split; [reflexivity | exact Hone].
Qed.

Lemma task_create_social_media_posts_returns l blog_title w :
  returns (task_create_social_media_posts llm (VList l) blog_title) w
    (fun _ calls => one_call "create_social_media_posts" calls).
Proof.
  unfold returns, task_create_social_media_posts, bind, lift, call_llm.
  rewrite bullet_lines_list. cbv beta iota zeta.
  match goal with |- context [llm w ?q] => set (req := q) end.
  assert (Hone : one_call "create_social_media_posts" [(req, llm w req)])
    by (eexists; split; reflexivity).
  destruct (llm w req) as [r|] eqn:R.
  - destruct (msg_tool_calls r) as [|tc rest] eqn:T.
    + eexists _, [(req, Some r)]. split; [reflexivity | exact Hone].
    + destruct (first_invocation_decodes w req r tc rest R T) as [d [D _]].
      rewrite D. simpl. eexists _, [(req, Some r)]. split; [reflexivity | exact Hone].
  - eexists _, [(req, None)]. split; [reflexivity | exact Hone].
Qed.

Lemma task_create_email_newsletter_returns blog_post summary l w :
  is_blog_post blog_post ->
  returns (task_create_email_newsletter llm blog_post summary (VList l)) w
    (fun _ calls => one_call "create_email_newsletter" calls).
Proof.
  intros [title [body [Ht Hb]]].
  unfold returns, task_create_email_newsletter, bind, lift, call_llm.
  rewrite Ht, bullet_lines_list. cbv beta iota zeta.
  match goal with |- context [llm w ?q] => set (req := q) end.
  assert (Hone : one_call "create_email_newsletter" [(req, llm w req)])
    by (eexists; split; reflexivity).
  destruct (llm w req) as [r|] eqn:R.
  - destruct (msg_tool_calls r) as [|tc rest] eqn:T.
    + eexists _, [(req, Some r)]. split; [reflexivity | exact Hone].
    + destruct (first_invocation_decodes w req r tc rest R T) as [d [D _]].
      rewrite D. simpl. eexists _, [(req, Some r)]. split; [reflexivity | exact Hone].
  - eexists _, [(req, None)]. split; [reflexivity | exact Hone].
Qed.

End WellFormed.

(** ** The agent *)

(** Decide the comparisons of tool names that are between literals. *)
Ltac decide_names :=
  repeat match goal with
         | |- context [String.eqb ?a ?b] =>
             let v := eval vm_compute in (String.eqb a b) in
             match v with
             | true => idtac
             | false => idtac
             end;
             change (String.eqb a b) with v
         end.

Lemma one_call_quiet choice calls : one_call choice calls -> quiet calls.
Proof.
  intros [c [-> H]]. constructor; [| constructor].
  unfold is_agent_request. now rewrite H.
Qed.

Lemma quiet_app calls calls' : quiet calls -> quiet calls' -> quiet (calls ++ calls').
Proof. intros H H'. apply Forall_app. now split. Qed.

Lemma quiet_agent_turns calls : quiet calls -> agent_turns calls = 0.
Proof.
  unfold agent_turns. induction 1 as [|c calls H _ IH]; simpl.
  - reflexivity.
  - now rewrite H.
Qed.

Lemma agent_turns_app calls calls' :
  agent_turns (calls ++ calls') = agent_turns calls + agent_turns calls'.
Proof. unfold agent_turns. now rewrite filter_app, length_app. Qed.

Section Agent.

Variable llm : World -> Request -> option Response.
Variable sample_file : option value.

(** C4, as the code has it. If the first tool invocation of the model's first
    response is "finish", the agent loop returns the arguments of that
    invocation, whatever they are and whatever follows it in the response,
    and the request that got this response is the only gateway call. *)
Theorem finish_first_returns_arguments blog_post title body w r tc rest arguments :
  subscript blog_post "title" = Ok title ->
  subscript blog_post "content" = Ok body ->
  llm w (request (initial_conversation title body) define_agent_tools None) = Some r ->
  msg_tool_calls r = tc :: rest ->
  tc_name tc = "finish" ->
  tc_arguments tc = Some arguments ->
  run_agent_workflow llm sample_file blog_post w =
  (Ok arguments,
   w ++ [(request (initial_conversation title body) define_agent_tools None, Some r)]).
Proof.
  intros Ht Hb R T N A.
  unfold run_agent_workflow, bind, lift. rewrite Ht, Hb. cbv beta iota zeta.
  unfold max_iterations. cbn [agent_loop]. unfold bind, call_llm.
  cbv beta iota zeta. rewrite R, T. cbn [run_tool_calls]. unfold bind.
  rewrite A, N. reflexivity.
Qed.

(** C2, as the code has it. When no response carries more than [m] tool
    invocations, an agent run makes at most
    [max_iterations * (1 + 3 * m)] gateway calls: per iteration the agent
    call, and per invocation the tool's call and up to two calls that
    re-derive missing inputs.  The bound holds whether the run returns or
    raises. *)
Theorem agent_gateway_calls_bounded m blog_post w :
  (forall w' req r, llm w' req = Some r -> List.length (msg_tool_calls r) <= m) ->
  exists calls,
    snd (run_agent_workflow llm sample_file blog_post w) = w ++ calls
    /\ List.length calls <= max_iterations * (1 + 3 * m).
Proof.
  intros Hm.
  assert (H : adds (run_agent_workflow llm sample_file blog_post)
                (max_iterations * (1 + 3 * m))).
  { unfold run_agent_workflow.
    apply adds_bind_pure; [apply adds_lift | intros title].
    apply adds_bind_pure; [apply adds_lift | intros body].
    apply adds_agent_loop. exact Hm. }
  exact (H w).
Qed.

Hypothesis well_formed : well_formed_gateway llm.
Hypothesis sample_is_blog_post : is_blog_post (get_sample_blog_post sample_file).


(** *** Dispatch never fails on well-formed invocations *)

Lemma returns_bind_ret {A B} (a : A) (k : A -> M B) w Q :
  returns (k a) w Q -> returns (bind (ret a) k) w Q.
Proof. intros H. exact H. Qed.

Lemma returns_bind_lift {A B} (o : Outcome A) a (k : A -> M B) w Q :
  o = Ok a -> returns (k a) w Q -> returns (bind (lift o) k) w Q.
Proof. intros -> H. exact H. Qed.

Lemma returns_bind_quiet {A B} (m : M A) (k : A -> M B) w
    (P : A -> Prop) (Q : B -> Prop) :
  returns m w (fun a calls => P a /\ quiet calls) ->
  (forall a w', P a -> returns (k a) w' (fun b calls => Q b /\ quiet calls)) ->
  returns (bind m k) w (fun b calls => Q b /\ quiet calls).
Proof.
  intros Hm Hk. eapply returns_bind; [exact Hm |].
  intros a calls [Pa Qc]. eapply returns_imp; [apply Hk; exact Pa |].
  intros b calls' [Qb Qc']. split; [exact Qb | now apply quiet_app].
Qed.

Lemma extract_quiet w :
  returns (task_extract_key_points llm (get_sample_blog_post sample_file)) w
    (fun v calls => (exists l, v = VList l) /\ quiet calls).
Proof.
  eapply returns_imp;
    [apply (task_extract_key_points_returns llm well_formed _ w sample_is_blog_post) |].
  intros v calls [Hv Hc]. split; [exact Hv | eapply one_call_quiet; exact Hc].
Qed.

Lemma or_else_key_points key_points w :
  key_points = VNone \/ (exists l, key_points = VList l) ->
  returns (or_else key_points
             (task_extract_key_points llm (get_sample_blog_post sample_file))) w
    (fun v calls => (exists l, v = VList l) /\ quiet calls).
Proof.
  intros [-> | [[|x l] ->]]; unfold or_else; simpl.
  - apply extract_quiet.
  - apply extract_quiet.
  - apply returns_ret. split; [eauto | constructor].
Qed.

Lemma dict_get_key_points arguments :
  assoc "key_points" arguments = None
  \/ (exists l, assoc "key_points" arguments = Some (VList l)) ->
  exists key_points,
    dict_get (VDict arguments) "key_points" VNone = Ok key_points
    /\ (key_points = VNone \/ exists l, key_points = VList l).
Proof.
  unfold dict_get. intros [K | [l K]]; rewrite K; eauto.
Qed.

Lemma execute_agent_tool_returns tool_name arguments w :
  assoc "key_points" arguments = None
  \/ (exists l, assoc "key_points" arguments = Some (VList l)) ->
  returns (execute_agent_tool llm sample_file tool_name (VDict arguments)) w
    (fun v calls =>
       (tool_name = "generate_summary" -> exists s, v = VDict [("summary", s)])
       /\ quiet calls).
Proof.
  intros Hkp. destruct (dict_get_key_points arguments Hkp) as [kp [Ekp Hkp']].
  destruct sample_is_blog_post as [title [body [Ht Hb]]].
  unfold execute_agent_tool.
  destruct (String.eqb tool_name "extract_key_points") eqn:N1.
  { apply String.eqb_eq in N1. subst tool_name.
    eapply returns_bind_quiet; [apply extract_quiet |].
    intros v w' _. apply returns_ret. split; [discriminate | constructor]. }
  destruct (String.eqb tool_name "generate_summary") eqn:N2.
  { eapply returns_bind_lift; [exact Ekp |].
    eapply returns_bind_quiet; [apply or_else_key_points; exact Hkp' |].
    intros v w' [l ->].
    eapply returns_bind_quiet with (P := fun _ => True).
    - eapply returns_imp; [apply (task_generate_summary_returns llm well_formed) |].
      intros s calls Hc. split; [exact I | eapply one_call_quiet; exact Hc].
    - intros s w'' _. apply returns_ret. split; [eauto | constructor]. }
  assert (Hname : tool_name = "generate_summary" ->
                  forall v, exists s, v = VDict [("summary", s)]).
  { intros ->. discriminate N2. }
  destruct (String.eqb tool_name "create_social_media_posts") eqn:N3.
  { eapply returns_bind_lift; [exact Ekp |].
    eapply returns_bind_quiet; [apply or_else_key_points; exact Hkp' |].
    intros v w' [l ->].
    eapply returns_bind_lift; [exact Ht |].
    eapply returns_imp;
      [apply (task_create_social_media_posts_returns llm well_formed) |].
    intros s calls Hc. split; [auto | eapply one_call_quiet; exact Hc]. }
  destruct (String.eqb tool_name "create_email_newsletter") eqn:N4.
  { eapply returns_bind_lift; [exact Ekp |].
    eapply returns_bind_lift with
      (a := match assoc "summary" arguments with Some x => x | None => VNone end).
    { unfold dict_get. destruct (assoc "summary" arguments); reflexivity. }
    eapply returns_bind_quiet; [apply or_else_key_points; exact Hkp' |].
    intros v w' [l ->].
    eapply returns_bind_quiet with (P := fun _ => True).
    - unfold or_else. destruct (truthy _).
      + apply returns_ret. split; [exact I | constructor].
      + eapply returns_imp; [apply (task_generate_summary_returns llm well_formed) |].
        intros s calls Hc. split; [exact I | eapply one_call_quiet; exact Hc].
    - intros summary w'' _.
      eapply returns_imp;
        [apply (task_create_email_newsletter_returns llm well_formed);
         exact sample_is_blog_post |].
      intros s calls Hc. split; [auto | eapply one_call_quiet; exact Hc]. }
  apply returns_ret. split; [auto | constructor].
Qed.

(** Saving a result touches the one field that belongs to the tool. *)
Lemma save_partial_returns tool_name tool_result s p e :
  (tool_name = "generate_summary" -> exists x, tool_result = VDict [("summary", x)]) ->
  exists s' p' e',
    (forall w, save_partial tool_name tool_result (partial_results s p e) w
               = (Ok (partial_results s' p' e'), w))
    /\ (String.eqb tool_name "generate_summary" = false -> s' = s)
    /\ (String.eqb tool_name "create_social_media_posts" = false -> p' = p)
    /\ (String.eqb tool_name "create_email_newsletter" = false -> e' = e).
Proof.
  intros Hres. unfold save_partial.
  destruct (String.eqb tool_name "generate_summary") eqn:N2.
  { apply String.eqb_eq in N2. destruct (Hres N2) as [x ->]. subst tool_name.
    exists x, p, e. repeat split; auto. discriminate. }
  destruct (String.eqb tool_name "create_social_media_posts") eqn:N3.
  { exists s, tool_result, e. repeat split; auto. discriminate. }
  destruct (String.eqb tool_name "create_email_newsletter") eqn:N4.
  { exists s, p, tool_result. repeat split; auto. discriminate. }
  exists s, p, e. repeat split; auto.
Qed.

Lemma run_tool_calls_continues tool_calls :
  forallb well_formed_call tool_calls = true ->
  existsb (names "finish") tool_calls = false ->
  forall messages s p e w,
    returns (run_tool_calls llm sample_file tool_calls messages (partial_results s p e)) w
      (fun turn calls =>
         (exists messages' s' p' e',
             turn = Continue messages' (partial_results s' p' e')
             /\ (existsb (names "generate_summary") tool_calls = false -> s' = s)
             /\ (existsb (names "create_social_media_posts") tool_calls = false
                 -> p' = p)
             /\ (existsb (names "create_email_newsletter") tool_calls = false
                 -> e' = e))
         /\ quiet calls).
Proof.
  induction tool_calls as [|tc rest IH]; intros W F messages s p e w.
  - apply returns_ret. split; [exists messages, s, p, e; auto | constructor].
  - simpl in W, F. apply andb_true_iff in W. destruct W as [Wtc Wrest].
    apply orb_false_iff in F. destruct F as [Ftc Frest].
    cbn [run_tool_calls]. unfold well_formed_call in Wtc.
    destruct (tc_arguments tc) as [[| | | | | |d]|] eqn:A; try discriminate.
    cbn [json_loads]. apply returns_bind_ret.
    unfold names in Ftc. rewrite Ftc.
    eapply returns_bind_quiet.
    { apply execute_agent_tool_returns.
      destruct (assoc "key_points" d) as [[| | | | |l|]|]; try discriminate; eauto. }
    intros tool_result w' Hres.
    destruct (save_partial_returns (tc_name tc) tool_result s p e Hres)
      as [s' [p' [e' [Hsave [Hs [Hp He]]]]]].
    eapply returns_bind with (Q1 := fun r calls => r = partial_results s' p' e' /\ calls = []).
    { exists (partial_results s' p' e'), []. rewrite Hsave, app_nil_r. auto. }
    intros results calls [-> ->]. rewrite app_nil_r.
    eapply returns_imp; [apply (IH Wrest Frest) |].
    intros turn calls [[messages' [s'' [p'' [e'' [-> [Hs' [Hp' He']]]]]]] Hq].
    split; [| exact Hq].
    exists messages', s'', p'', e''. split; [reflexivity |].
    simpl existsb. unfold names at 1 3 5.
    repeat split; intros H; apply orb_false_iff in H; destruct H as [H1 H2].
    + now rewrite (Hs' H2), (Hs H1).
    + now rewrite (Hp' H2), (Hp H1).
    + now rewrite (He' H2), (He H1).
Qed.

(** *** The accumulator holds what the tools produced *)

Lemma latest_app name produced1 produced2 :
  latest name (produced1 ++ produced2) =
  match latest name produced2 with
  | Some x => Some x
  | None => latest name produced1
  end.
Proof.
  induction produced1 as [|[n tool_result] produced1 IH]; simpl.
  - now destruct (latest name produced2).
  - rewrite IH. now destruct (latest name produced2).
Qed.

(** Saving a result stores it in the field of its tool and leaves the other
    fields as they are. *)
Lemma save_partial_saves tool_name tool_result s p e :
  (tool_name = "generate_summary" -> exists x, tool_result = VDict [("summary", x)]) ->
  exists s' p' e',
    (forall w, save_partial tool_name tool_result (partial_results s p e) w
               = (Ok (partial_results s' p' e'), w))
    /\ (if String.eqb tool_name "generate_summary"
        then tool_result = VDict [("summary", s')] else s' = s)
    /\ p' = (if String.eqb tool_name "create_social_media_posts"
             then tool_result else p)
    /\ e' = (if String.eqb tool_name "create_email_newsletter"
             then tool_result else e).
Proof.
  intros Hres. unfold save_partial.
  destruct (String.eqb tool_name "generate_summary") eqn:N2.
  { apply String.eqb_eq in N2. destruct (Hres N2) as [x ->]. subst tool_name.
    exists x, p, e. repeat split; auto. }
  destruct (String.eqb tool_name "create_social_media_posts") eqn:N3.
  { apply String.eqb_eq in N3. subst tool_name.
    exists s, tool_result, e. repeat split; auto. }
  destruct (String.eqb tool_name "create_email_newsletter") eqn:N4.
  { exists s, p, tool_result. repeat split; auto. }
  exists s, p, e. repeat split; auto.
Qed.

Lemma run_tool_calls_produced tool_calls :
  forallb well_formed_call tool_calls = true ->
  existsb (names "finish") tool_calls = false ->
  forall messages s p e w,
  exists messages' s' p' e' calls produced,
    run_tool_calls llm sample_file tool_calls messages (partial_results s p e) w
      = (Ok (Continue messages' (partial_results s' p' e')), w ++ calls)
    /\ quiet calls
    /\ dispatched llm sample_file tool_calls w (w ++ calls) produced
    /\ match latest "generate_summary" produced with
       | Some tool_result => tool_result = VDict [("summary", s')]
       | None => s' = s
       end
    /\ p' = match latest "create_social_media_posts" produced with
            | Some tool_result => tool_result
            | None => p
            end
    /\ e' = match latest "create_email_newsletter" produced with
            | Some tool_result => tool_result
            | None => e
            end.
Proof.
  induction tool_calls as [|tc rest IH]; intros W F messages s p e w.
  - exists messages, s, p, e, [], []. simpl. unfold ret. rewrite app_nil_r.
    repeat split; constructor.
  - simpl in W, F. apply andb_true_iff in W. destruct W as [Wtc Wrest].
    apply orb_false_iff in F. destruct F as [Ftc Frest].
    cbn [run_tool_calls]. unfold well_formed_call in Wtc.
    destruct (tc_arguments tc) as [[| | | | | |d]|] eqn:A; try discriminate.
    cbn [json_loads]. unfold bind at 1, ret at 1.
    unfold names in Ftc. rewrite Ftc.
    assert (Hkp : assoc "key_points" d = None
                  \/ (exists l, assoc "key_points" d = Some (VList l))).
    { destruct (assoc "key_points" d) as [[| | | | |l|]|]; try discriminate; eauto. }
    destruct (execute_agent_tool_returns (tc_name tc) d w Hkp)
      as [tool_result [calls1 [E1 [Hres Hq1]]]].
    destruct (save_partial_saves (tc_name tc) tool_result s p e Hres)
      as [s1 [p1 [e1 [Hsave [Hs [Hp He]]]]]].
    destruct (IH Wrest Frest (messages ++ [tool_message tc tool_result]) s1 p1 e1
                (w ++ calls1))
      as [messages' [s' [p' [e' [calls2 [produced [E2 [Hq2 [D [Ls [Lp Le]]]]]]]]]]].
    exists messages', s', p', e', (calls1 ++ calls2),
           ((tc_name tc, tool_result) :: produced).
    split.
    { unfold bind. rewrite E1, Hsave, E2, app_assoc. reflexivity. }
    split; [now apply quiet_app |].
    split.
    { eapply dispatched_next; [exact A | exact E1 |]. rewrite app_assoc. exact D. }
    cbn [latest].
    split; [| split].
    + destruct (latest "generate_summary" produced); [exact Ls |].
      subst s'. destruct (String.eqb (tc_name tc) "generate_summary"); exact Hs.
    + destruct (latest "create_social_media_posts" produced); [exact Lp |].
      subst p' p1. now destruct (String.eqb (tc_name tc) "create_social_media_posts").
    + destruct (latest "create_email_newsletter" produced); [exact Le |].
      subst e' e1. now destruct (String.eqb (tc_name tc) "create_email_newsletter").
Qed.

Hypothesis no_finish : never_finishes llm.
Hypothesis answered : agent_turns_answered llm.

Lemma agent_loop_returns :
  forall n messages s p e w,
    returns (agent_loop llm sample_file n messages (partial_results s p e)) w
      (fun v calls =>
         exists s' p' e',
           v = VDict (partial_results s' p' e')
           /\ agent_turns calls <= n
           /\ (existsb (invokes "generate_summary") calls = false -> s' = s)
           /\ (existsb (invokes "create_social_media_posts") calls = false -> p' = p)
           /\ (existsb (invokes "create_email_newsletter") calls = false -> e' = e)).
Proof.
  induction n as [|n IH]; intros messages s p e w.
  - apply returns_ret. exists s, p, e. unfold agent_turns. simpl. auto with arith.
  - cbn [agent_loop]. unfold returns, bind at 1, call_llm.
    set (req := request messages define_agent_tools None).
    cbv beta iota zeta.
    destruct (llm w req) as [r|] eqn:R; [| now destruct (answered w req eq_refl)].
    pose proof (well_formed w req r R) as W. pose proof (no_finish w req r R) as F.
    assert (Hinv : forall name calls,
               existsb (invokes name) ((req, Some r) :: calls) = false ->
               existsb (names name) (msg_tool_calls r) = false
               /\ existsb (invokes name) calls = false).
    { intros name calls H. simpl in H. apply orb_false_iff in H. exact H. }
    destruct (msg_tool_calls r) as [|tc tcs] eqn:T.
    { exists (VDict (partial_results s p e)), [(req, Some r)].
      split; [reflexivity |]. exists s, p, e. unfold agent_turns. simpl.
      repeat split; auto with arith. }
    rewrite <- T in *.
    destruct (run_tool_calls_continues (msg_tool_calls r) W F
                (messages ++ [Assistant r]) s p e (w ++ [(req, Some r)]))
      as [turn [calls1 [E1 [[messages' [s' [p' [e' [-> [Hs [Hp He]]]]]]] Hq]]]].
    unfold bind. rewrite E1.
    destruct (IH messages' s' p' e' ((w ++ [(req, Some r)]) ++ calls1))
      as [v [calls2 [E2 [s'' [p'' [e'' [-> [Hn [Hs' [Hp' He']]]]]]]]]].
    exists (VDict (partial_results s'' p'' e'')), ((req, Some r) :: calls1 ++ calls2).
    split; [rewrite E2, <- !app_assoc; reflexivity |].
    exists s'', p'', e''. split; [reflexivity |]. split.
    { change ((req, Some r) :: calls1 ++ calls2)
        with ([(req, Some r)] ++ calls1 ++ calls2).
      rewrite !agent_turns_app, (quiet_agent_turns calls1 Hq).
      unfold agent_turns at 1. simpl. lia. }
    repeat split; intros H; apply Hinv in H; destruct H as [H1 H2];
      rewrite existsb_app in H2; apply orb_false_iff in H2; destruct H2 as [_ H2].
    + now rewrite (Hs' H2), (Hs H1).
    + now rewrite (Hp' H2), (Hp H1).
    + now rewrite (He' H2), (He H1).
Qed.

(** The loop goes on until its budget is used up or the model answers without
    asking for a tool, and what it returns then is the accumulator: each
    field holds what the last run of its tool returned. *)
Lemma agent_loop_produces :
  forall n messages s p e w,
  exists s' p' e' calls produced,
    agent_loop llm sample_file n messages (partial_results s p e) w
      = (Ok (VDict (partial_results s' p' e')), w ++ calls)
    /\ (agent_turns calls = n \/ ends_in_prose calls)
    /\ turns llm sample_file w calls produced
    /\ match latest "generate_summary" produced with
       | Some tool_result => tool_result = VDict [("summary", s')]
       | None => s' = s
       end
    /\ p' = match latest "create_social_media_posts" produced with
            | Some tool_result => tool_result
            | None => p
            end
    /\ e' = match latest "create_email_newsletter" produced with
            | Some tool_result => tool_result
            | None => e
            end.
Proof.
  induction n as [|n IH]; intros messages s p e w.
  - exists s, p, e, [], []. cbn [agent_loop]. unfold ret. rewrite app_nil_r.
    repeat split; first [now left | constructor].
  - cbn [agent_loop]. unfold bind at 1, call_llm.
    set (req := request messages define_agent_tools None).
    cbv beta iota zeta.
    destruct (llm w req) as [r|] eqn:R; [| now destruct (answered w req eq_refl)].
    pose proof (well_formed w req r R) as W. pose proof (no_finish w req r R) as F.
    destruct (msg_tool_calls r) as [|tc tcs] eqn:T.
    { exists s, p, e, [(req, Some r)], [].
      split; [reflexivity |].
      split; [right; exists [], req, r; auto |].
      split; [| repeat split].
      apply (turns_next llm sample_file w req r [] [] [] []);
        [reflexivity | exact R | | constructor].
      rewrite T, app_nil_r. constructor. }
    rewrite <- T in *.
    destruct (run_tool_calls_produced (msg_tool_calls r) W F
                (messages ++ [Assistant r]) s p e (w ++ [(req, Some r)]))
      as [messages' [s1 [p1 [e1 [calls1 [produced1 [E1 [Hq [D [Ls [Lp Le]]]]]]]]]]].
    unfold bind. rewrite E1.
    destruct (IH messages' s1 p1 e1 ((w ++ [(req, Some r)]) ++ calls1))
      as [s' [p' [e' [calls2 [produced2 [E2 [Hn [Ht [Ls' [Lp' Le']]]]]]]]]].
    exists s', p', e', ((req, Some r) :: calls1 ++ calls2), (produced1 ++ produced2).
    split; [rewrite E2, <- !app_assoc; reflexivity |].
    split.
    { destruct Hn as [Hn | [calls' [req' [r' [-> [Ha Hp']]]]]].
      - left. change ((req, Some r) :: calls1 ++ calls2)
          with ([(req, Some r)] ++ calls1 ++ calls2).
        rewrite !agent_turns_app, (quiet_agent_turns calls1 Hq), Hn.
        reflexivity.
      - right. exists ((req, Some r) :: calls1 ++ calls'), req', r'.
        rewrite <- app_comm_cons, <- app_assoc. auto. }
    split; [now apply turns_next |].
    rewrite !latest_app.
    split; [| split].
    + destruct (latest "generate_summary" produced2); [exact Ls' |].
      subst s'. exact Ls.
    + destruct (latest "create_social_media_posts" produced2); [exact Lp' |].
      subst p'. exact Lp.
    + destruct (latest "create_email_newsletter" produced2); [exact Le' |].
      subst e'. exact Le.
Qed.

(** C6, as the code has it.  When the model never asks for "finish", every
    request of the agent loop is answered, the tool invocations are well
    formed and the sample blog post is readable, the agent loop ends after at
    most [max_iterations] turns, and before that only when a response carries
    no tool invocation.  It returns the accumulator of partial results: each
    field holds what the last run of its tool returned ([summary] the summary
    in that result), and a field whose tool never ran, in particular one
    whose tool the model never asked for, is [None]. *)
Theorem agent_exhaustion_returns_partial_results blog_post w :
  is_blog_post blog_post ->
  exists summary social_posts email calls produced,
    run_agent_workflow llm sample_file blog_post w
      = (Ok (VDict [("summary", summary); ("social_posts", social_posts);
                    ("email", email)]), w ++ calls)
    /\ agent_turns calls <= max_iterations
    /\ (agent_turns calls = max_iterations \/ ends_in_prose calls)
    /\ turns llm sample_file w calls produced
    /\ match latest "generate_summary" produced with
       | Some tool_result => tool_result = VDict [("summary", summary)]
       | None => summary = VNone
       end
    /\ social_posts = match latest "create_social_media_posts" produced with
                      | Some tool_result => tool_result
                      | None => VNone
                      end
    /\ email = match latest "create_email_newsletter" produced with
               | Some tool_result => tool_result
               | None => VNone
               end
    /\ (existsb (invokes "generate_summary") calls = false -> summary = VNone)
    /\ (existsb (invokes "create_social_media_posts") calls = false
        -> social_posts = VNone)
    /\ (existsb (invokes "create_email_newsletter") calls = false -> email = VNone).
Proof.
  intros [title [body [Ht Hb]]].
  destruct (agent_loop_returns max_iterations (initial_conversation title body)
              VNone VNone VNone w)
    as [v [calls [E [s [p [e [-> [Hturns [Hs [Hp He]]]]]]]]]].
  destruct (agent_loop_produces max_iterations (initial_conversation title body)
              VNone VNone VNone w)
    as [s' [p' [e' [calls' [produced [E' [Hend [Htrace [Ls [Lp Le]]]]]]]]]].
  rewrite E in E'. injection E' as <- <- <- Hcalls.
  apply app_inv_head in Hcalls. subst calls'.
  exists s, p, e, calls, produced.
  split; [unfold run_agent_workflow, bind, lift; rewrite Ht, Hb; exact E |].
  repeat split; assumption.
Qed.

End Agent.

(** ** The comparison *)

Section Comparison.

Variable llm : World -> Request -> option Response.
Hypothesis text : evaluations_have_text llm.

Lemma evaluate_content_returns content content_type w :
  evaluate_content llm content content_type w =
  (Ok (evaluation_of (llm w (evaluation_request content content_type))),
   w ++ [(evaluation_request content content_type,
          llm w (evaluation_request content content_type))]).
Proof.
  rewrite evaluate_content_run. cbv zeta. fold (evaluation_request content content_type).
  destruct (llm w _) as [r|] eqn:R; [| reflexivity].
  pose proof (text w _ r R eq_refl eq_refl) as H. unfold evaluation_of.
  destruct (msg_content r); [reflexivity | congruence].
Qed.

Lemma dict_get_field_or d k dflt :
  dict_get (VDict d) k dflt = Ok (field_or d k dflt).
Proof. unfold dict_get, field_or. destruct (assoc k d); reflexivity. Qed.

(** C9, as the code has it.  Whatever the pipeline with reflexion returned,
    and whatever mapping the agent returned, the comparison returns a report
    and does not raise when the service answers evaluation requests by text.
    It makes six evaluation calls, three per pipeline, in the order summary,
    social posts, newsletter.  A field whose key is missing from the agent's
    mapping is evaluated as the empty string (summary) or the empty mapping
    (social posts, newsletter); a field that is present is evaluated with the
    value it has, [None] included.  The report holds the six evaluations side
    by side. *)
Theorem compare_outputs_reports reflexion_output agent_output w :
  exists c1 c2 c3 c4 c5 c6,
    compare_outputs llm reflexion_output (VDict agent_output) w =
      (Ok {| reflexion_eval :=
               {| eval_summary := evaluation_of (snd c1);
                  eval_social := evaluation_of (snd c2);
                  eval_email := evaluation_of (snd c3) |};
             agent_eval :=
               {| eval_summary := evaluation_of (snd c4);
                  eval_social := evaluation_of (snd c5);
                  eval_email := evaluation_of (snd c6) |} |},
       w ++ [c1; c2; c3; c4; c5; c6])
    /\ map fst [c1; c2; c3; c4; c5; c6] =
       [evaluation_request (Fmt (wf_summary reflexion_output)) "summary";
        evaluation_request (Dumps (wf_social_media reflexion_output)) "social_media_post";
        evaluation_request (Dumps (wf_email reflexion_output)) "email";
        evaluation_request (Fmt (field_or agent_output "summary" (VStr ""))) "summary";
        evaluation_request (Dumps (field_or agent_output "social_posts" (VDict [])))
          "social_media_post";
        evaluation_request (Dumps (field_or agent_output "email" (VDict []))) "email"].
Proof.
  unfold compare_outputs. rewrite !dict_get_field_or. unfold bind, lift.
  repeat (rewrite evaluate_content_returns; cbv beta iota).
  do 6 (eexists (_, _)). rewrite <- !app_assoc. simpl. split; reflexivity.
Qed.

End Comparison.

(** * Further properties *)

(** ** The reflexion loop when no evaluation is good enough *)

Section Exhaustion.

Variable llm : World -> Request -> option Response.

(** When every evaluation returns a score below the threshold, the loop uses
    its whole budget: [k] evaluations, each followed by an improve call. *)
Lemma reflexion_loop_exhausts content_type :
  (forall content w,
      exists ev,
        fst (evaluate_content llm (Fmt content) content_type w) = Ok ev
        /\ meets_threshold (quality_score ev) = false) ->
  forall k content w,
  exists calls,
    reflexion_loop llm k content_type content w
      = (Ok (held_content content calls), w ++ calls)
    /\ count_calls evaluate_prompt calls = k
    /\ count_calls improve_prompt calls = k
    /\ List.length calls = 2 * k
    /\ Forall (fun c => exists w', snd c = llm w' (fst c)) calls
    /\ (1 <= k ->
        exists calls' c, calls = calls' ++ [c] /\ has_prompt improve_prompt c = true).
Proof.
  intros Hlow. induction k as [|k IH]; intros content w; cbn [reflexion_loop].
  - exists []. unfold ret. rewrite app_nil_r.
    repeat split; first [constructor | lia].
  - unfold bind at 1. destruct (Hlow content w) as [ev [E Hev]].
    pose proof (evaluate_content_run llm (Fmt content) content_type w) as R.
    cbv zeta in R.
    set (ereq := request (evaluate_messages (Fmt content) content_type) [] None) in *.
    destruct (evaluate_call_is_evaluate (Fmt content) content_type (llm w ereq))
      as [Ee Ei]. fold ereq in Ee, Ei.
    rewrite R in E. simpl in E. rewrite R, E, Hev.
    unfold bind. rewrite improve_content_run. cbv zeta.
    set (ireq := request (improve_messages content (feedback ev)) [] None).
    set (ires := llm (w ++ [(ereq, llm w ereq)]) ireq).
    destruct (improve_call_is_improve content (feedback ev) ires) as [Ii Ie].
    fold ireq in Ii, Ie.
    set (content' := match ires with
                     | Some r => match msg_content r with
                                 | Some s => VStr s | None => VNone end
                     | None => content end).
    destruct (IH content' ((w ++ [(ereq, llm w ereq)]) ++ [(ireq, ires)]))
      as [calls [E' [B1 [B2 [B3 [B4 B5]]]]]].
    exists ((ereq, llm w ereq) :: (ireq, ires) :: calls).
    rewrite E', <- !app_assoc. simpl.
    rewrite !count_calls_cons, Ee, Ei, Ii, Ie.
    unfold held_content in *. simpl. unfold adopt at 3 4. rewrite Ei, Ii.
    simpl. fold content'.
    split; [reflexivity |].
    split; [unfold count_calls in *; lia |].
    split; [unfold count_calls in *; lia |].
    split; [lia |].
    split.
    + constructor; [now exists w |].
      constructor; [now exists (w ++ [(ereq, llm w ereq)]) | exact B4].
    + intros _. destruct k as [|k'].
      * destruct calls; [| simpl in B3; lia].
        exists [(ereq, llm w ereq)], (ireq, ires). now split.
      * destruct B5 as [calls' [c [-> Hc]]]; [lia |].
        exists ((ereq, llm w ereq) :: (ireq, ires) :: calls'), c. now split.
Qed.

Lemma held_content_failed calls :
  Forall (fun c : Call => snd c = None) calls ->
  forall content, held_content content calls = content.
Proof.
  unfold held_content. induction 1 as [|c calls H _ IH]; intros content; simpl.
  - reflexivity.
  - rewrite <- (IH content) at 2. f_equal. unfold adopt. rewrite H.
    destruct (has_prompt improve_prompt c); reflexivity.
Qed.


(** X2. With the gateway down the wrapper does not raise: it spends its
    whole budget on failed calls, [k] evaluations and [k] improve calls, and
    returns the generator's content unchanged. *)
Theorem generate_with_reflexion_gateway_down generator_func k content_type w content0 w1 :
  generator_func w = (Ok content0, w1) ->
  (forall w' req, llm w' req = None) ->
  exists calls,
    generate_with_reflexion llm generator_func k content_type w
      = (Ok content0, w1 ++ calls)
    /\ count_calls evaluate_prompt calls = k
    /\ count_calls improve_prompt calls = k
    /\ Forall (fun c : Call => snd c = None) calls.
Proof.
  intros Hgen Hdown. unfold generate_with_reflexion, bind. rewrite Hgen.
  destruct (reflexion_loop_exhausts (kwargs_pop content_type "content")) with
    (k := k) (content := content0) (w := w1) as [calls [E [B1 [B2 [_ [B4 _]]]]]].
  - intros content w'. rewrite evaluate_content_run. cbv zeta.
    rewrite Hdown. eexists. split; reflexivity.
  - assert (F : Forall (fun c : Call => snd c = None) calls).
    { eapply Forall_impl; [| exact B4]. intros c [w' H]. now rewrite H, Hdown. }
    exists calls. rewrite E, (held_content_failed calls F). auto.
Qed.

(** X22. The default evaluation is for a failed call only.  When the
    gateway answers the first evaluation with a response that has no text,
    the substring test raises [TypeError], and the wrapper raises with it
    after that one call: the generated content is not returned. *)
Theorem generate_with_reflexion_raises_without_text
    generator_func k content_type w content0 w1 r :
  1 <= k ->
  generator_func w = (Ok content0, w1) ->
  llm w1 (evaluation_request (Fmt content0) (kwargs_pop content_type "content"))
    = Some r ->
  msg_content r = None ->
  generate_with_reflexion llm generator_func k content_type w =
  (Raise TypeError,
   w1 ++ [(evaluation_request (Fmt content0) (kwargs_pop content_type "content"),
           Some r)]).
Proof.
  intros Hk Hgen R C. unfold generate_with_reflexion, bind at 1. rewrite Hgen.
  destruct k as [|k]; [lia |]. cbn [reflexion_loop]. unfold bind at 1.
  rewrite evaluate_content_run. cbv zeta.
  unfold evaluation_request in R. rewrite R, C. reflexivity.
Qed.

End Exhaustion.

(** ** What the content tools make of an answer *)

Section Decoding.

Variable llm : World -> Request -> option Response.

(** Run the four tools on inputs of the expected shape against an answer
    whose first invocation is [tc]. *)
Ltac run_tools Ht Hb Hr T A :=
  unfold task_extract_key_points, task_generate_summary,
    task_create_social_media_posts, task_create_email_newsletter;
  unfold bind, lift, call_llm; rewrite Ht, Hb, bullet_lines_list;
  cbv beta iota zeta; rewrite !Hr, T; unfold json_loads; rewrite A.

(** X3. When the gateway answers with tool invocations, each tool reads the
    first one only.  Key points and summary are the field of that name in its
    arguments, or the default (empty list, empty string) when the field is
    missing; social posts and newsletter are the whole argument mapping,
    returned as it is, whatever keys it has. *)
Theorem content_tools_decode blog_post blog_title summary items w r tc rest d :
  is_blog_post blog_post ->
  (forall req, llm w req = Some r) ->
  msg_tool_calls r = tc :: rest ->
  tc_arguments tc = Some (VDict d) ->
  fst (task_extract_key_points llm blog_post w)
    = Ok (field_or d "key_points" (VList []))
  /\ fst (task_generate_summary llm (VList items) w)
     = Ok (field_or d "summary" (VStr ""))
  /\ fst (task_create_social_media_posts llm (VList items) blog_title w)
     = Ok (VDict d)
  /\ fst (task_create_email_newsletter llm blog_post summary (VList items) w)
     = Ok (VDict d).
Proof.
  intros [title [body [Ht Hb]]] Hr T A. run_tools Ht Hb Hr T A.
  unfold ret. rewrite !dict_get_field_or. simpl. auto.
Qed.

(** X4. When the arguments of the first invocation decode to something that
    is not a mapping (a list, a string, a number, null), the tools for key
    points and summary raise [AttributeError], after their gateway call; the
    tools for social posts and newsletter return that value as it is. *)
Theorem content_tools_decode_non_mapping
    blog_post blog_title summary items w r tc rest v :
  is_blog_post blog_post ->
  (forall req, llm w req = Some r) ->
  msg_tool_calls r = tc :: rest ->
  tc_arguments tc = Some v ->
  is_mapping v = false ->
  fst (task_extract_key_points llm blog_post w) = Raise AttributeError
  /\ fst (task_generate_summary llm (VList items) w) = Raise AttributeError
  /\ fst (task_create_social_media_posts llm (VList items) blog_title w) = Ok v
  /\ fst (task_create_email_newsletter llm blog_post summary (VList items) w) = Ok v.
Proof.
  intros [title [body [Ht Hb]]] Hr T A V. run_tools Ht Hb Hr T A.
  destruct v; try discriminate V; simpl; auto.
Qed.

(** X5. When the argument text of the first invocation is not valid JSON,
    each of the four tools raises [JSONDecodeError]: the failure is not
    turned into the empty default. *)
Theorem content_tools_decode_error blog_post blog_title summary items w r tc rest :
  is_blog_post blog_post ->
  (forall req, llm w req = Some r) ->
  msg_tool_calls r = tc :: rest ->
  tc_arguments tc = None ->
  fst (task_extract_key_points llm blog_post w) = Raise JSONDecodeError
  /\ fst (task_generate_summary llm (VList items) w) = Raise JSONDecodeError
  /\ fst (task_create_social_media_posts llm (VList items) blog_title w)
     = Raise JSONDecodeError
  /\ fst (task_create_email_newsletter llm blog_post summary (VList items) w)
     = Raise JSONDecodeError.
Proof.
  intros [title [body [Ht Hb]]] Hr T A. run_tools Ht Hb Hr T A.
  simpl. auto.
Qed.

(** X6. On a blog post with title and content and a list of key points,
    each tool makes one gateway call whatever comes back (there is no retry):
    the request offers the schema of the tool alone and forces it, and the
    logged answer is the gateway's. *)
Theorem content_tools_one_forced_call blog_post blog_title summary items w :
  is_blog_post blog_post ->
  (exists c, snd (task_extract_key_points llm blog_post w) = w ++ [c]
             /\ req_tools (fst c) = [extract_key_points_schema]
             /\ req_tool_choice (fst c) = Some "extract_key_points"
             /\ snd c = llm w (fst c))
  /\ (exists c, snd (task_generate_summary llm (VList items) w) = w ++ [c]
                /\ req_tools (fst c) = [generate_summary_schema]
                /\ req_tool_choice (fst c) = Some "generate_summary"
                /\ snd c = llm w (fst c))
  /\ (exists c, snd (task_create_social_media_posts llm (VList items) blog_title w)
                = w ++ [c]
                /\ req_tools (fst c) = [create_social_media_posts_schema]
                /\ req_tool_choice (fst c) = Some "create_social_media_posts"
                /\ snd c = llm w (fst c))
  /\ (exists c, snd (task_create_email_newsletter llm blog_post summary
                       (VList items) w) = w ++ [c]
                /\ req_tools (fst c) = [create_email_newsletter_schema]
                /\ req_tool_choice (fst c) = Some "create_email_newsletter"
                /\ snd c = llm w (fst c)).
Proof.
  intros [title [body [Ht Hb]]].
  unfold task_extract_key_points, task_generate_summary,
    task_create_social_media_posts, task_create_email_newsletter.
  unfold bind, lift, call_llm. rewrite Ht, Hb, bullet_lines_list.
  cbv beta iota zeta.
  repeat split;
    match goal with
    | |- context [llm w ?q] =>
        exists (q, llm w q);
        destruct (llm w q) as [r|] eqn:R;
        [ destruct (msg_tool_calls r) as [|tc ?];
          [| unfold json_loads; destruct (tc_arguments tc) ] |];
        repeat split; simpl; symmetry; exact R
    end.
Qed.

End Decoding.

(** ** The dispatcher of the agent *)

Section Dispatch.

Variable llm : World -> Request -> option Response.

(** X7. A tool name the dispatcher does not know (any name but the four
    content tools; "finish" never reaches it) gives the empty mapping, with
    no gateway call and without looking at the arguments or the sample file. *)
Theorem execute_agent_tool_unknown sample_file tool_name arguments w :
  tool_name <> "extract_key_points" ->
  tool_name <> "generate_summary" ->
  tool_name <> "create_social_media_posts" ->
  tool_name <> "create_email_newsletter" ->
  execute_agent_tool llm sample_file tool_name arguments w = (Ok (VDict []), w).
Proof.
  intros N1 N2 N3 N4. unfold execute_agent_tool.
  apply String.eqb_neq in N1, N2, N3, N4. rewrite N1, N2, N3, N4. reflexivity.
Qed.

(** X8. A dispatch of [generate_summary] whose arguments carry a non-empty
    list of key points uses them: it makes one gateway call, the forced
    summary, and no extraction, whatever the sample file is. *)
Theorem execute_agent_tool_summary_given sample_file arguments x l w :
  assoc "key_points" arguments = Some (VList (x :: l)) ->
  exists c,
    snd (execute_agent_tool llm sample_file "generate_summary" (VDict arguments) w)
      = w ++ [c]
    /\ req_tool_choice (fst c) = Some "generate_summary"
    /\ req_messages (fst c) =
       [Msg "system" [Lit summary_prompt];
        Msg "user" (Lit "Summarize:" :: Lit nl :: join_bullets (x :: l))]
    /\ snd c = llm w (fst c).
Proof.
  intros K. unfold execute_agent_tool. decide_names. cbv iota.
  unfold dict_get. rewrite K. unfold bind at 1 2, lift, or_else.
  change (truthy (VList (x :: l))) with true. cbv beta iota. unfold ret at 1.
  unfold task_generate_summary, bind, lift, call_llm.
  rewrite bullet_lines_list. cbv beta iota zeta.
  match goal with
  | |- context [llm w ?q] =>
      exists (q, llm w q); destruct (llm w q) as [r|] eqn:R;
      [ destruct (msg_tool_calls r) as [|tc ?];
        [| unfold json_loads; destruct (tc_arguments tc) as [v|];
           [destruct v; unfold ret, dict_get; cbv beta iota;
            try destruct (assoc "summary" _) |] ] |];
      repeat split; first [reflexivity | simpl; symmetry; exact R]
  end.
Qed.

(** X9. Key points that are present but falsy (an empty list, an empty
    string, null, [false], zero) are treated exactly like missing ones: two
    argument mappings that agree on the summary and carry no usable key
    points are dispatched alike, for every tool. *)
Theorem execute_agent_tool_falsy_key_points
    sample_file tool_name arguments arguments' w :
  truthy (key_points_of arguments) = false ->
  truthy (key_points_of arguments') = false ->
  assoc "summary" arguments = assoc "summary" arguments' ->
  execute_agent_tool llm sample_file tool_name (VDict arguments) w
  = execute_agent_tool llm sample_file tool_name (VDict arguments') w.
Proof.
  intros F F' S. unfold execute_agent_tool.
  rewrite !dict_get_field_or. fold (key_points_of arguments).
  fold (key_points_of arguments'). unfold field_or at 1 2. rewrite S.
  unfold bind, lift, or_else. rewrite F, F'. reflexivity.
Qed.

(** X10. With the sample file unreadable the dispatcher has no blog post:
    a dispatch of [extract_key_points] (whatever the arguments) or of
    [create_social_media_posts] (on an argument mapping) raises [TypeError]
    before any gateway call, and a dispatch of [create_email_newsletter]
    raises too. *)
Theorem execute_agent_tool_no_sample arguments d w :
  execute_agent_tool llm None "extract_key_points" arguments w = (Raise TypeError, w)
  /\ execute_agent_tool llm None "create_social_media_posts" (VDict d) w
     = (Raise TypeError, w)
  /\ exists e w',
       execute_agent_tool llm None "create_email_newsletter" (VDict d) w
       = (Raise e, w').
Proof.
  unfold execute_agent_tool. decide_names. cbv iota.
  rewrite !dict_get_field_or. unfold bind, lift, or_else.
  split; [reflexivity |]. split.
  - destruct (truthy (field_or d "key_points" VNone)); reflexivity.
  - destruct (truthy (field_or d "key_points" VNone)).
    + destruct (truthy (field_or d "summary" VNone)).
      * do 2 eexists. reflexivity.
      * unfold ret at 1.
        destruct (task_generate_summary llm (field_or d "key_points" VNone) w)
          as [[s|e] w']; do 2 eexists; reflexivity.
    + do 2 eexists. reflexivity.
Qed.

End Dispatch.

(** ** What every agent run keeps *)

Lemma quietly_ret {A} (a : A) : quietly (ret a).
Proof. intros w. exists []. simpl. rewrite app_nil_r. split; [reflexivity | constructor]. Qed.

Lemma quietly_raise {A} e : quietly (@raise A e).
Proof. intros w. exists []. simpl. rewrite app_nil_r. split; [reflexivity | constructor]. Qed.

Lemma quietly_lift {A} (o : Outcome A) : quietly (lift o).
Proof. intros w. exists []. simpl. rewrite app_nil_r. split; [reflexivity | constructor]. Qed.

Lemma quietly_json_loads a : quietly (json_loads a).
Proof. destruct a; [apply quietly_ret | apply quietly_raise]. Qed.

Lemma quietly_bind {A B} (m : M A) (k : A -> M B) :
  quietly m -> (forall a, quietly (k a)) -> quietly (bind m k).
Proof.
  intros Hm Hk w. unfold bind.
  destruct (Hm w) as [c1 [E1 Q1]]. destruct (m w) as [[a|e] w1]; simpl in E1; subst w1.
  - destruct (Hk a (w ++ c1)) as [c2 [E2 Q2]]. exists (c1 ++ c2).
    rewrite E2, app_assoc. split; [reflexivity | now apply quiet_app].
  - exists c1. split; [reflexivity | exact Q1].
Qed.

Lemma quietly_call_llm_forced llm messages tools name :
  quietly (call_llm llm messages tools (Some name)).
Proof.
  intros w. eexists. split; [reflexivity |]. constructor; [reflexivity | constructor].
Qed.

Create HintDb quietly.
#[local] Hint Resolve quietly_ret quietly_raise quietly_lift quietly_json_loads
  quietly_call_llm_forced : quietly.

Ltac quietly_walk :=
  repeat first
    [ apply quietly_ret | apply quietly_raise | apply quietly_lift
    | apply quietly_json_loads | apply quietly_call_llm_forced
    | apply quietly_bind; [ solve [eauto with quietly] | intros ]
    | match goal with
      | |- quietly (match ?x with _ => _ end) => destruct x
      end ].

Lemma append_only_weaken start start' conversations :
  extends start start' -> append_only start' conversations ->
  append_only start conversations.
Proof.
  intros [more ->]. destruct conversations as [|m rest]; simpl; [auto |].
  intros [[more' ->] H]. split; [| exact H].
  exists (more ++ more'). now rewrite app_assoc.
Qed.

Lemma extends_refl l : extends l l.
Proof. exists []. now rewrite app_nil_r. Qed.

Lemma extends_trans l l' l'' : extends l l' -> extends l' l'' -> extends l l''.
Proof. intros [m ->] [m' ->]. exists (m ++ m'). now rewrite app_assoc. Qed.

Lemma agent_conversations_app calls calls' :
  agent_conversations (calls ++ calls')
  = agent_conversations calls ++ agent_conversations calls'.
Proof. unfold agent_conversations. now rewrite filter_app, map_app. Qed.

Lemma agent_conversations_quiet calls : quiet calls -> agent_conversations calls = [].
Proof.
  unfold agent_conversations. induction 1 as [|c calls H _ IH]; simpl.
  - reflexivity.
  - now rewrite H.
Qed.

Lemma agent_outcome_later outcome before calls :
  agent_outcome outcome calls -> agent_outcome outcome (before ++ calls).
Proof.
  intros [[E [calls' [req [-> A]]]] | [H | [[v [E [c [r [tc [I H]]]]]] | H]]].
  - left. split; [exact E |]. exists (before ++ calls'), req.
    now rewrite app_assoc.
  - right. left. exact H.
  - right. right. left. exists v. split; [exact E |]. exists c, r, tc.
    split; [apply in_or_app; now right | exact H].
  - right. right. right. exact H.
Qed.

Lemma log_unchanged (w calls : World) : w = w ++ calls -> calls = [].
Proof.
  intros E. apply (f_equal (@List.length Call)) in E. rewrite length_app in E.
  destruct calls; [reflexivity | simpl in E; lia].
Qed.

Section AgentInvariants.

Variable llm : World -> Request -> option Response.
Variable sample_file : option value.

Lemma quietly_task_extract_key_points blog_post :
  quietly (task_extract_key_points llm blog_post).
Proof. unfold task_extract_key_points. quietly_walk. Qed.

Lemma quietly_task_generate_summary key_points :
  quietly (task_generate_summary llm key_points).
Proof. unfold task_generate_summary. quietly_walk. Qed.

Lemma quietly_task_create_social_media_posts key_points title :
  quietly (task_create_social_media_posts llm key_points title).
Proof. unfold task_create_social_media_posts. quietly_walk. Qed.

Lemma quietly_task_create_email_newsletter blog_post summary key_points :
  quietly (task_create_email_newsletter llm blog_post summary key_points).
Proof. unfold task_create_email_newsletter. quietly_walk. Qed.

#[local] Hint Resolve quietly_task_extract_key_points quietly_task_generate_summary
  quietly_task_create_social_media_posts quietly_task_create_email_newsletter
  : quietly.

Lemma quietly_or_else x recover : quietly recover -> quietly (or_else x recover).
Proof. intros H. unfold or_else. destruct (truthy x); [apply quietly_ret | exact H]. Qed.

#[local] Hint Resolve quietly_or_else : quietly.

(** A dispatch makes no request of the agent loop. *)
Lemma quietly_execute_agent_tool tool_name arguments :
  quietly (execute_agent_tool llm sample_file tool_name arguments).
Proof.
  unfold execute_agent_tool.
  repeat match goal with
         | |- quietly (if ?c then _ else _) => destruct c
         end; quietly_walk.
Qed.

(** Saving a result makes no call and keeps the three fields of the
    accumulator. *)
Lemma save_partial_shape tool_name tool_result s p e w :
  (exists s' p' e',
      save_partial tool_name tool_result (partial_results s p e) w
      = (Ok (partial_results s' p' e'), w))
  \/ (exists ex,
         save_partial tool_name tool_result (partial_results s p e) w = (Raise ex, w)).
Proof.
  unfold save_partial.
  destruct (String.eqb tool_name "generate_summary").
  { unfold bind, lift. destruct (dict_get tool_result "summary" VNone) as [x|ex].
    - left. exists x, p, e. reflexivity.
    - right. exists ex. reflexivity. }
  destruct (String.eqb tool_name "create_social_media_posts").
  { left. exists s, tool_result, e. reflexivity. }
  destruct (String.eqb tool_name "create_email_newsletter").
  { left. exists s, p, tool_result. reflexivity. }
  left. exists s, p, e. reflexivity.
Qed.

(** One turn of tool calls: only quiet calls; when it goes on, the
    conversation has grown and the accumulator has its three fields; when it
    finishes, with the arguments of a "finish" invocation of the turn. *)
Lemma run_tool_calls_turn tool_calls :
  forall messages s p e w,
  exists outcome calls,
    run_tool_calls llm sample_file tool_calls messages (partial_results s p e) w
      = (outcome, w ++ calls)
    /\ quiet calls
    /\ match outcome with
       | Ok (Continue messages' results') =>
           extends messages messages'
           /\ exists s' p' e', results' = partial_results s' p' e'
       | Ok (Finished v) =>
           exists tc, In tc tool_calls /\ tc_name tc = "finish"
                      /\ tc_arguments tc = Some v
       | Raise _ => True
       end.
Proof.
  induction tool_calls as [|tc rest IH]; intros messages s p e w.
  - exists (Ok (Continue messages (partial_results s p e))), [].
    simpl. unfold ret. rewrite app_nil_r.
    split; [reflexivity |]. split; [constructor |].
    split; [apply extends_refl | now exists s, p, e].
  - cbn [run_tool_calls]. unfold bind at 1, json_loads.
    destruct (tc_arguments tc) as [v|] eqn:A.
    2:{ exists (Raise JSONDecodeError), []. unfold raise. rewrite app_nil_r.
        split; [reflexivity |]. split; [constructor | exact I]. }
    unfold ret at 1. cbv beta iota.
    destruct (String.eqb (tc_name tc) "finish") eqn:N.
    { exists (Ok (Finished v)), []. unfold ret. rewrite app_nil_r.
      split; [reflexivity |]. split; [constructor |].
      exists tc. apply String.eqb_eq in N. split; [now left | now split]. }
    unfold bind at 1.
    destruct (quietly_execute_agent_tool (tc_name tc) v w) as [calls1 [E1 Q1]].
    destruct (execute_agent_tool llm sample_file (tc_name tc) v w)
      as [[tool_result|ex] w1]; simpl in E1; subst w1.
    2:{ exists (Raise ex), calls1. auto. }
    unfold bind at 1.
    destruct (save_partial_shape (tc_name tc) tool_result s p e (w ++ calls1))
      as [[s' [p' [e' Hs]]] | [ex Hs]]; rewrite Hs.
    2:{ exists (Raise ex), calls1. auto. }
    destruct (IH (messages ++ [tool_message tc tool_result]) s' p' e' (w ++ calls1))
      as [outcome [calls2 [E2 [Q2 H2]]]].
    exists outcome, (calls1 ++ calls2). rewrite E2, app_assoc.
    split; [reflexivity |]. split; [now apply quiet_app |].
    destruct outcome as [[v'|messages' results']|ex]; [| | exact I].
    + destruct H2 as [tc' [I' H']]. exists tc'. split; [now right | exact H'].
    + destruct H2 as [X H']. split; [| exact H'].
      eapply extends_trans; [| exact X]. now exists [tool_message tc tool_result].
Qed.

Lemma agent_loop_invariant :
  forall n messages s p e w,
  exists outcome calls,
    agent_loop llm sample_file n messages (partial_results s p e) w
      = (outcome, w ++ calls)
    /\ agent_turns calls <= n
    /\ append_only messages (agent_conversations calls)
    /\ agent_outcome outcome calls
    /\ (forall c, In c calls -> is_agent_request (fst c) = true -> snd c = None ->
                  outcome = Ok llm_call_failed).
Proof.
  induction n as [|n IH]; intros messages s p e w.
  - exists (Ok (VDict (partial_results s p e))), []. simpl. unfold ret.
    rewrite app_nil_r. split; [reflexivity |].
    split; [unfold agent_turns; simpl; lia |]. split; [exact I |].
    split; [right; left; now exists s, p, e | intros c []].
  - cbn [agent_loop]. unfold bind at 1, call_llm.
    set (req := request messages define_agent_tools None).
    cbv beta iota zeta.
    assert (Hone : forall res,
               agent_turns [(req, res)] = 1
               /\ agent_conversations [(req, res)] = [messages]) by (split; reflexivity).
    destruct (llm w req) as [r|] eqn:R.
    2:{ exists (Ok llm_call_failed), [(req, None)].
        destruct (Hone None) as [T C]. rewrite T, C. simpl.
        split; [reflexivity |]. split; [lia |].
        split; [split; [apply extends_refl | exact I] |].
        split; [| reflexivity].
        left. split; [reflexivity |]. now exists [], req. }
    destruct (Hone (Some r)) as [T C].
    destruct (msg_tool_calls r) as [|tc tcs] eqn:TC.
    { exists (Ok (VDict (partial_results s p e))), [(req, Some r)].
      rewrite T, C. simpl. split; [reflexivity |].
      split; [lia |]. split; [split; [apply extends_refl | exact I] |].
      split; [right; left; now exists s, p, e |].
      intros c [<- | []] _ F. discriminate F. }
    rewrite <- TC. unfold bind.
    destruct (run_tool_calls_turn (msg_tool_calls r) (messages ++ [Assistant r])
                s p e (w ++ [(req, Some r)])) as [turn [calls1 [E1 [Q1 H1]]]].
    rewrite E1.
    assert (Hturn : agent_turns ([(req, Some r)] ++ calls1) = 1
                    /\ agent_conversations ([(req, Some r)] ++ calls1) = [messages]).
    { rewrite agent_turns_app, agent_conversations_app, T, C,
        (quiet_agent_turns _ Q1), (agent_conversations_quiet _ Q1). now split. }
    destruct Hturn as [T1 C1].
    assert (Hfail : forall c, In c ([(req, Some r)] ++ calls1) ->
                              is_agent_request (fst c) = true -> snd c = None -> False).
    { intros c [<- | Hin] Ha F; [discriminate F |].
      unfold quiet in Q1. rewrite Forall_forall in Q1.
      rewrite (Q1 c Hin) in Ha. discriminate Ha. }
    destruct turn as [[v|messages' results']|ex].
    + exists (Ok v), ([(req, Some r)] ++ calls1). rewrite app_assoc, T1, C1.
      split; [reflexivity |]. split; [lia |].
      split; [split; [apply extends_refl | exact I] |].
      split; [| intros c Hin Ha F; destruct (Hfail c Hin Ha F)].
      right. right. left. exists v. split; [reflexivity |].
      destruct H1 as [tc' [I' [N A]]]. exists (req, Some r), r, tc'.
      repeat split; auto. now left.
    + destruct H1 as [X [s' [p' [e' ->]]]].
      destruct (IH messages' s' p' e' ((w ++ [(req, Some r)]) ++ calls1))
        as [outcome [calls2 [E2 [B2 [A2 [O2 F2]]]]]].
      exists outcome, (([(req, Some r)] ++ calls1) ++ calls2).
      rewrite E2, !app_assoc. split; [reflexivity |].
      rewrite agent_turns_app, agent_conversations_app, T1, C1.
      split; [lia |]. split.
      * split; [apply extends_refl |].
        eapply append_only_weaken; [| exact A2].
        eapply extends_trans; [| exact X]. now exists [Assistant r].
      * split; [apply agent_outcome_later; exact O2 |].
        intros c Hin Ha F. apply in_app_or in Hin. destruct Hin as [Hin | Hin].
        -- destruct (Hfail c Hin Ha F).
        -- exact (F2 c Hin Ha F).
    + exists (Raise ex), ([(req, Some r)] ++ calls1). rewrite app_assoc, T1, C1.
      split; [reflexivity |]. split; [lia |].
      split; [split; [apply extends_refl | exact I] |].
      split; [right; right; right; now exists ex |].
      intros c Hin Ha F. destruct (Hfail c Hin Ha F).
Qed.

(** X11. Whatever the gateway answers, and whether the run returns or
    raises, an agent run sends at most [max_iterations] requests from the
    agent loop itself. *)
Theorem agent_turns_bounded blog_post w :
  exists outcome calls,
    run_agent_workflow llm sample_file blog_post w = (outcome, w ++ calls)
    /\ agent_turns calls <= max_iterations.
Proof.
  unfold run_agent_workflow, bind, lift.
  destruct (subscript blog_post "title") as [title|ex].
  2:{ exists (Raise ex), []. rewrite app_nil_r. split; [reflexivity |].
      unfold agent_turns. simpl. lia. }
  destruct (subscript blog_post "content") as [body|ex].
  2:{ exists (Raise ex), []. rewrite app_nil_r. split; [reflexivity |].
      unfold agent_turns. simpl. lia. }
  destruct (agent_loop_invariant max_iterations (initial_conversation title body)
              VNone VNone VNone w) as [outcome [calls [E [B _]]]].
  exists outcome, calls. split; [exact E | exact B].
Qed.

(** X12. The conversation of the agent is append-only: the first request of
    the agent loop carries the initial conversation, possibly extended, and
    every later one carries the conversation of the request before it with
    messages appended; nothing is dropped or rewritten. *)
Theorem agent_conversation_append_only blog_post title body w :
  subscript blog_post "title" = Ok title ->
  subscript blog_post "content" = Ok body ->
  exists outcome calls,
    run_agent_workflow llm sample_file blog_post w = (outcome, w ++ calls)
    /\ append_only (initial_conversation title body) (agent_conversations calls).
Proof.
  intros Ht Hb. unfold run_agent_workflow, bind, lift. rewrite Ht, Hb.
  destruct (agent_loop_invariant max_iterations (initial_conversation title body)
              VNone VNone VNone w) as [outcome [calls [E [_ [A _]]]]].
  exists outcome, calls. split; [exact E | exact A].
Qed.

(** X13. An agent run ends in one of four ways: with the error mapping,
    and then the last gateway call is a failed request of the agent loop;
    with the accumulator, a mapping with exactly the fields summary,
    social_posts and email; with the decoded arguments of a "finish"
    invocation that the model sent in a logged response; or with an
    exception. *)
Theorem agent_run_outcome blog_post w :
  exists outcome calls,
    run_agent_workflow llm sample_file blog_post w = (outcome, w ++ calls)
    /\ agent_outcome outcome calls.
Proof.
  unfold run_agent_workflow, bind, lift.
  destruct (subscript blog_post "title") as [title|ex].
  2:{ exists (Raise ex), []. rewrite app_nil_r. split; [reflexivity |].
      right. right. right. now exists ex. }
  destruct (subscript blog_post "content") as [body|ex].
  2:{ exists (Raise ex), []. rewrite app_nil_r. split; [reflexivity |].
      right. right. right. now exists ex. }
  destruct (agent_loop_invariant max_iterations (initial_conversation title body)
              VNone VNone VNone w) as [outcome [calls [E [_ [_ [O _]]]]]].
  exists outcome, calls. split; [exact E | exact O].
Qed.

(** X20. A request of the agent loop that fails ends the run with the error
    mapping: whatever the tools had produced until then is not returned. *)
Theorem agent_failed_request_returns_error blog_post outcome calls w :
  run_agent_workflow llm sample_file blog_post w = (outcome, w ++ calls) ->
  forall c,
    In c calls -> is_agent_request (fst c) = true -> snd c = None ->
    outcome = Ok (VDict [("error", VStr "LLM call failed")]).
Proof.
  unfold run_agent_workflow, bind, lift.
  destruct (subscript blog_post "title") as [title|ex].
  2:{ intros E c Hin. injection E as _ E. apply log_unchanged in E.
      subst calls. destruct Hin. }
  destruct (subscript blog_post "content") as [body|ex].
  2:{ intros E c Hin. injection E as _ E. apply log_unchanged in E.
      subst calls. destruct Hin. }
  destruct (agent_loop_invariant max_iterations (initial_conversation title body)
              VNone VNone VNone w) as [outcome' [calls' [E' [_ [_ [_ F]]]]]].
  intros E.
  change (agent_loop llm sample_file max_iterations (initial_conversation title body)
            (partial_results VNone VNone VNone) w = (outcome, w ++ calls)) in E.
  rewrite E' in E. injection E as <- E. apply app_inv_head in E.
  subst calls'. exact F.
Qed.

(** X21. When the model's first response carries no tool invocation (it
    answers in prose), the run stops after that one gateway call and returns
    the accumulator as it started, every field [None]. *)
Theorem agent_prose_answer_ends_run blog_post title body w r :
  subscript blog_post "title" = Ok title ->
  subscript blog_post "content" = Ok body ->
  llm w (request (initial_conversation title body) define_agent_tools None) = Some r ->
  msg_tool_calls r = [] ->
  run_agent_workflow llm sample_file blog_post w =
  (Ok (VDict [("summary", VNone); ("social_posts", VNone); ("email", VNone)]),
   w ++ [(request (initial_conversation title body) define_agent_tools None, Some r)]).
Proof.
  intros Ht Hb R T.
  unfold run_agent_workflow, bind, lift. rewrite Ht, Hb. cbv beta iota zeta.
  unfold max_iterations. cbn [agent_loop]. unfold bind, call_llm.
  cbv beta iota zeta. rewrite R, T. reflexivity.
Qed.

(** X23. A turn that goes on has answered every invocation of the response:
    it has appended to the conversation one tool message per invocation, in
    the order of the invocations, each with the id and the tool name of its
    invocation, and nothing else. *)
Theorem run_tool_calls_appends_tool_messages
    tool_calls messages results w messages' results' w' :
  run_tool_calls llm sample_file tool_calls messages results w
    = (Ok (Continue messages' results'), w') ->
  exists more,
    messages' = messages ++ more
    /\ map tool_message_header more
       = map (fun tc => Some (tc_id tc, tc_name tc)) tool_calls.
Proof.
  revert messages results w.
  induction tool_calls as [|tc rest IH]; intros messages results w H.
  - injection H as <- _ _. exists []. now rewrite app_nil_r.
  - cbn [run_tool_calls] in H. unfold bind at 1, json_loads in H.
    destruct (tc_arguments tc) as [v|]; [| discriminate H].
    unfold ret at 1 in H. cbv beta iota in H.
    destruct (String.eqb (tc_name tc) "finish"); [discriminate H |].
    unfold bind at 1 in H.
    destruct (execute_agent_tool llm sample_file (tc_name tc) v w)
      as [[tool_result|ex] w1]; [| discriminate H].
    unfold bind at 1 in H.
    destruct (save_partial (tc_name tc) tool_result results w1)
      as [[results1|ex] w2]; [| discriminate H].
    apply IH in H. destruct H as [more [-> Hm]].
    exists (tool_message tc tool_result :: more). rewrite <- app_assoc.
    split; [reflexivity |]. simpl. now rewrite Hm.
Qed.

Lemma bind_ext {A B} (m : M A) (k k' : A -> M B) w :
  (forall a w', k a w' = k' a w') -> bind m k w = bind m k' w.
Proof.
  intros H. unfold bind. destruct (m w) as [[a|ex] w']; [apply H | reflexivity].
Qed.

(** X14. The tool invocations that follow a "finish" in the same response
    are never looked at: the turn runs as if the response ended with the
    "finish" invocation. *)
Theorem run_tool_calls_stops_at_finish before tc after messages results w :
  tc_name tc = "finish" ->
  run_tool_calls llm sample_file (before ++ tc :: after) messages results w
  = run_tool_calls llm sample_file (before ++ [tc]) messages results w.
Proof.
  intros N. revert messages results w.
  induction before as [|tc0 before IH]; intros messages results w; simpl app;
    cbn [run_tool_calls]; apply bind_ext; intros arguments w'.
  - rewrite N. reflexivity.
  - destruct (String.eqb (tc_name tc0) "finish"); [reflexivity |].
    apply bind_ext. intros tool_result w''.
    apply bind_ext. intros results' w'''. apply IH.
Qed.

End AgentInvariants.

(** ** The pipeline with reflexion *)

Lemma returns_always {A} (m : M A) w (Q : A -> list Call -> Prop) :
  returns m w Q -> returns m w (fun _ _ => True).
Proof. intros H. eapply returns_imp; [exact H | auto]. Qed.

Section Pipeline.

Variable llm : World -> Request -> option Response.

Lemma adds_evaluate_content content content_type :
  adds (evaluate_content llm content content_type) 1.
Proof.
  intros w. rewrite evaluate_content_run. eexists.
  split; [reflexivity | simpl; lia].
Qed.

Lemma adds_generate_with_reflexion generator_func g k content_type :
  adds generator_func g ->
  adds (generate_with_reflexion llm generator_func k content_type) (g + 2 * k).
Proof.
  intros H. unfold generate_with_reflexion.
  apply (adds_bind _ _ g (2 * k)); [exact H | | lia].
  intros content. apply adds_reflexion_loop.
Qed.

Lemma adds_run_workflow_with_reflexion blog_post :
  adds (run_workflow_with_reflexion llm blog_post)
       (1 + 3 * (1 + 2 * default_max_attempts)).
Proof.
  unfold run_workflow_with_reflexion.
  apply (adds_bind _ _ 1 (3 * (1 + 2 * default_max_attempts)));
    [apply adds_task_extract_key_points | intros key_points | lia].
  apply (adds_bind _ _ (1 + 2 * default_max_attempts)
           (2 * (1 + 2 * default_max_attempts)));
    [apply adds_generate_with_reflexion, adds_task_generate_summary
    | intros summary | lia].
  apply adds_bind_pure; [apply adds_lift | intros title].
  apply (adds_bind _ _ (1 + 2 * default_max_attempts)
           (1 + 2 * default_max_attempts));
    [apply adds_generate_with_reflexion, adds_task_create_social_media_posts
    | intros sm_posts | lia].
  apply (adds_bind _ _ (1 + 2 * default_max_attempts) 0);
    [apply adds_generate_with_reflexion, adds_task_create_email_newsletter
    | intros email; apply adds_ret | lia].
Qed.

(** X15. Whatever the gateway does, and whether it returns or raises, the
    pipeline with reflexion makes at most 22 gateway calls: the extraction,
    and for each of the three wrapped steps the generation, up to three
    evaluations and up to three improve calls. *)
Theorem run_workflow_with_reflexion_bounded blog_post w :
  exists calls,
    snd (run_workflow_with_reflexion llm blog_post w) = w ++ calls
    /\ List.length calls <= 22.
Proof. exact (adds_run_workflow_with_reflexion blog_post w). Qed.

(** X17. Both workflows read the title and the content of the blog post
    before they call the gateway: when one of the two cannot be read (the
    blog post is not a mapping, or lacks the key), they raise that error and
    no gateway call is made. *)
Theorem workflows_check_blog_post sample_file blog_post ex w :
  subscript blog_post "title" = Raise ex
  \/ (exists title, subscript blog_post "title" = Ok title
                    /\ subscript blog_post "content" = Raise ex) ->
  run_workflow_with_reflexion llm blog_post w = (Raise ex, w)
  /\ run_agent_workflow llm sample_file blog_post w = (Raise ex, w).
Proof.
  unfold run_workflow_with_reflexion, run_agent_workflow, task_extract_key_points.
  unfold bind, lift. intros [Ht | [title [Ht Hb]]].
  - rewrite Ht. split; reflexivity.
  - rewrite Ht, Hb. split; reflexivity.
Qed.

Hypothesis well_formed : well_formed_gateway llm.
Hypothesis text : evaluations_have_text llm.

Lemma generate_with_reflexion_returns generator_func k content_type w :
  returns generator_func w (fun _ _ => True) ->
  returns (generate_with_reflexion llm generator_func k content_type) w
    (fun _ _ => True).
Proof.
  intros H. unfold generate_with_reflexion.
  eapply returns_bind; [exact H |]. intros content calls _.
  destruct (reflexion_loop_calls llm (kwargs_pop content_type "content") k content
              (w ++ calls)) as [outcome [calls' [E [_ [_ [_ O]]]]]].
  exists (held_content content calls'), calls'. rewrite E, (O text). auto.
Qed.

(** X16. On a blog post with title and content, with well-formed tool
    invocations and evaluations answered by text, the pipeline with
    reflexion does not raise: it returns its three results, after at most 22
    gateway calls. *)
Theorem run_workflow_with_reflexion_returns blog_post w :
  is_blog_post blog_post ->
  exists result calls,
    run_workflow_with_reflexion llm blog_post w = (Ok result, w ++ calls)
    /\ List.length calls <= 22.
Proof.
  intros Hbp.
  assert (R : returns (run_workflow_with_reflexion llm blog_post) w (fun _ _ => True)).
  { unfold run_workflow_with_reflexion.
    eapply returns_bind;
      [apply (task_extract_key_points_returns llm well_formed _ w Hbp) |].
    intros key_points calls [[l ->] _].
    eapply returns_bind.
    { apply generate_with_reflexion_returns.
      eapply returns_always, (task_generate_summary_returns llm well_formed). }
    intros summary calls1 _.
    destruct Hbp as [title [body [Ht Hb]]].
    eapply returns_bind_lift; [exact Ht |].
    eapply returns_bind.
    { apply generate_with_reflexion_returns.
      eapply returns_always, (task_create_social_media_posts_returns llm well_formed). }
    intros sm_posts calls2 _.
    eapply returns_bind.
    { apply generate_with_reflexion_returns.
      eapply returns_always,
        (task_create_email_newsletter_returns llm well_formed).
      now exists title, body. }
    intros email calls3 _. now apply returns_ret. }
  destruct R as [result [calls [E _]]].
  destruct (adds_run_workflow_with_reflexion blog_post w) as [calls' [E' L]].
  rewrite E in E'. simpl in E'. apply app_inv_head in E'. subst calls'.
  exists result, calls. split; [exact E | exact L].
Qed.

End Pipeline.

(** ** The comparison, further *)

Section ComparisonFurther.

Variable llm : World -> Request -> option Response.
Variable sample_file : option value.

Lemma adds_compare_outputs reflexion_output agent_output :
  adds (compare_outputs llm reflexion_output agent_output) 6.
Proof.
  unfold compare_outputs.
  repeat first
    [ apply adds_ret
    | apply adds_bind_pure; [ apply adds_lift | intros ]
    | apply (adds_bind_n 1); [ apply adds_evaluate_content | intros; simpl | simpl; lia ] ].
Qed.

(** X19. When no response carries more than [m] tool invocations, a
    comparison makes at most [22 + max_iterations * (1 + 3 * m) + 6] gateway
    calls: those of the pipeline, those of the agent, and six evaluations. *)
Theorem compare_workflows_bounded m blog_post w :
  (forall w' req r, llm w' req = Some r -> List.length (msg_tool_calls r) <= m) ->
  exists calls,
    snd (compare_workflows llm sample_file blog_post w) = w ++ calls
    /\ List.length calls <= 22 + max_iterations * (1 + 3 * m) + 6.
Proof.
  intros Hm.
  assert (H : adds (compare_workflows llm sample_file blog_post)
                (22 + max_iterations * (1 + 3 * m) + 6)).
  { unfold compare_workflows.
    apply (adds_bind _ _ 22 (max_iterations * (1 + 3 * m) + 6));
      [apply adds_run_workflow_with_reflexion | intros reflexion_output | lia].
    apply (adds_bind _ _ (max_iterations * (1 + 3 * m)) 6);
      [| intros agent_output; apply adds_compare_outputs | lia].
    unfold run_agent_workflow.
    apply adds_bind_pure; [apply adds_lift | intros title].
    apply adds_bind_pure; [apply adds_lift | intros body].
    apply adds_agent_loop. exact Hm. }
  exact (H w).
Qed.

Hypothesis text : evaluations_have_text llm.

(** X18. The arguments of "finish" are returned as they are, so the agent's
    output need not be a mapping.  When it is not, the comparison raises
    [AttributeError], after it has evaluated the three fragments of the
    pipeline with reflexion: no report is returned. *)
Theorem compare_outputs_non_mapping reflexion_output agent_output w :
  is_mapping agent_output = false ->
  exists c1 c2 c3,
    compare_outputs llm reflexion_output agent_output w
      = (Raise AttributeError, w ++ [c1; c2; c3])
    /\ map fst [c1; c2; c3] =
       [evaluation_request (Fmt (wf_summary reflexion_output)) "summary";
        evaluation_request (Dumps (wf_social_media reflexion_output))
          "social_media_post";
        evaluation_request (Dumps (wf_email reflexion_output)) "email"].
Proof.
  intros V. unfold compare_outputs. unfold bind at 1 2 3.
  repeat (rewrite (evaluate_content_returns llm text); cbv beta iota).
  do 3 (eexists (_, _)). unfold bind, lift.
  destruct agent_output; try discriminate V; simpl; rewrite <- !app_assoc;
    split; reflexivity.
Qed.

End ComparisonFurther.

(** * Sample runs *)

Module Runs.

Import Sample.

(** ** The sample gateways meet the assumptions made above *)

Lemma the_post_is_blog_post : is_blog_post the_post.
Proof. exists (VStr "T"), (VStr "C"). split; reflexivity. Qed.

Lemma sample_is_the_post : is_blog_post (get_sample_blog_post (Some the_post)).
Proof. exact the_post_is_blog_post. Qed.

Lemma critic_text s : evaluations_have_text (critic s).
Proof. intros w req r E _ _. injection E as <-. discriminate. Qed.

Lemma stub_text agent : evaluations_have_text (stub agent).
Proof.
  intros w req r E _ T. unfold stub in E. rewrite T in E.
  injection E as <-. discriminate.
Qed.

Lemma stub_invocations_cases name (P : list ToolCall -> Prop) :
  P [invocation "extract_key_points" [("key_points", VList [VStr "a"; VStr "b"])]] ->
  P [invocation "generate_summary" [("summary", VStr "S")]] ->
  P [invocation "create_social_media_posts"
       [("twitter", VStr "x"); ("linkedin", VStr "y"); ("facebook", VStr "z")]] ->
  P [invocation "create_email_newsletter"
       [("subject", VStr "Sub"); ("body", VStr "Body")]] ->
  P [] ->
  P (stub_invocations name).
Proof.
  intros H1 H2 H3 H4 H5. unfold stub_invocations.
  repeat match goal with
         | |- P (if ?c then _ else _) => destruct c
         end; assumption.
Qed.

(** What holds of every answer of the agent and of every forced invocation
    holds of every answer of the stub to a request that offers tools. *)
Lemma stub_answers agent (P : Response -> Prop) :
  P (answer_text "good") ->
  (forall name, P (answer_calls (stub_invocations name))) ->
  (forall w r, agent w = Some r -> P r) ->
  forall w req r, stub agent w req = Some r -> P r.
Proof.
  intros Htext Hforced Hagent w req r. unfold stub.
  destruct (req_tools req); [intros E; injection E as <-; exact Htext |].
  destruct (req_tool_choice req) as [name|].
  - intros E. injection E as <-. apply Hforced.
  - apply Hagent.
Qed.

Lemma stub_well_formed agent :
  (forall w r, agent w = Some r -> forallb well_formed_call (msg_tool_calls r) = true) ->
  well_formed_gateway (stub agent).
Proof.
  intros H.
  refine (stub_answers agent
            (fun r => forallb well_formed_call (msg_tool_calls r) = true) _ _ H);
    [reflexivity |].
  intros name. apply (stub_invocations_cases name
    (fun tcs => forallb well_formed_call (msg_tool_calls (answer_calls tcs)) = true));
    reflexivity.
Qed.

Lemma stub_never_finishes agent :
  (forall w r, agent w = Some r ->
               existsb (names "finish") (msg_tool_calls r) = false) ->
  never_finishes (stub agent).
Proof.
  intros H.
  refine (stub_answers agent
            (fun r => existsb (names "finish") (msg_tool_calls r) = false) _ _ H);
    [reflexivity |].
  intros name. apply (stub_invocations_cases name
    (fun tcs => existsb (names "finish") (msg_tool_calls (answer_calls tcs)) = false));
    reflexivity.
Qed.

Lemma stub_at_most agent m :
  1 <= m ->
  (forall w r, agent w = Some r -> List.length (msg_tool_calls r) <= m) ->
  forall w req r, stub agent w req = Some r -> List.length (msg_tool_calls r) <= m.
Proof.
  intros Hm H.
  refine (stub_answers agent (fun r => List.length (msg_tool_calls r) <= m) _ _ H);
    [simpl; lia |].
  intros name. apply (stub_invocations_cases name
    (fun tcs => List.length (msg_tool_calls (answer_calls tcs)) <= m));
    simpl; lia.
Qed.

Lemma stub_answered agent :
  (forall w, agent w <> None) -> agent_turns_answered (stub agent).
Proof.
  intros H w req A. unfold is_agent_request in A. unfold stub.
  destruct (req_tool_choice req); [discriminate |].
  destruct (req_tools req); [discriminate | apply H].
Qed.

Lemma constant_agent (r0 : Response) (P : Response -> Prop) :
  P r0 -> forall (w : World) r, (fun _ : World => Some r0) w = Some r -> P r.
Proof. intros H w r E. injection E as <-. exact H. Qed.

(** ** The reflexion loop on a critic that is never satisfied, and on one
    that is *)

(** C1, as stated, fails: with a budget of three attempts and a generator
    that returned a draft, a service that answers the evaluation request by a
    response without text makes the wrapper raise in its first evaluation;
    no content is returned. *)
Lemma evaluation_without_text_counterexample :
  1 <= 3
  /\ ret (VStr "draft") [] = (Ok (VStr "draft"), [])
  /\ generate_with_reflexion (always (answer_calls [])) (ret (VStr "draft")) 3
       (Some "summary") []
     = (Raise TypeError,
        [(evaluation_request (Fmt (VStr "draft")) "summary",
          Some (answer_calls []))]).
Proof. split; [lia |]. split; reflexivity. Qed.

Lemma generate_with_reflexion_bounded_witness :
  exists calls,
    generate_with_reflexion (critic "needs work") (ret (VStr "draft")) 2
      (Some "summary") [] = (Ok (held_content (VStr "draft") calls), [] ++ calls)
    /\ count_calls evaluate_prompt calls <= 2
    /\ count_calls improve_prompt calls <= count_calls evaluate_prompt calls.
Proof.
  destruct (generate_with_reflexion_bounded (critic "needs work")
              (ret (VStr "draft")) 2 (Some "summary") [] (VStr "draft") [] eq_refl)
    as [outcome [calls [E [B [B' [_ H]]]]]].
  destruct (H (critic_text "needs work")) as [Ho _].
  exists calls. split; [rewrite <- Ho; exact E |]. split; [exact B | exact B'].
Defined.


(** ** The evaluator on a gateway that is down, and on a praising one *)

Lemma evaluate_content_gateway_failure_witness :
  evaluate_content offline (Fmt (VStr "draft")) "summary" [] =
  (Ok {| quality_score := 0.5%float; feedback := "No evaluation" |},
   [] ++ [(request (evaluate_messages (Fmt (VStr "draft")) "summary") [] None, None)]).
Proof.
  refine (evaluate_content_gateway_failure offline (Fmt (VStr "draft")) "summary" [] _).
  reflexivity.
Defined.

Lemma evaluate_content_score_witness :
  evaluate_content (critic "good work") (Fmt (VStr "draft")) "summary" [] =
    (Ok {| quality_score := 0.9%float; feedback := "good work" |},
     [(request (evaluate_messages (Fmt (VStr "draft")) "summary") [] None,
       Some (answer_text "good work"))])
  /\ meets_threshold 0.9%float = true.
Proof.
  destruct (evaluate_content_score (critic "good work") (Fmt (VStr "draft"))
              "summary" [] (answer_text "good work") "good work" eq_refl eq_refl)
    as [E [_ [T _]]].
  split; [exact E | exact T].
Defined.

(** ** The content tools on a gateway that is down *)

Lemma content_tools_default_witness :
  fst (task_extract_key_points offline the_post []) = Ok (VList [])
  /\ fst (task_generate_summary offline (VList [VStr "a"; VStr "b"]) []) = Ok (VStr "")
  /\ fst (task_create_social_media_posts offline (VList [VStr "a"; VStr "b"])
            (VStr "T") []) = Ok (VDict [])
  /\ fst (task_create_email_newsletter offline the_post (VStr "S")
            (VList [VStr "a"; VStr "b"]) []) = Ok (VDict []).
Proof.
  destruct (content_tools_default offline the_post (VStr "T") (VStr "S")
              (VList [VStr "a"; VStr "b"]) []) as [H1 [H2 [H3 H4]]].
  split; [| split; [| split]].
  - eapply H1; [reflexivity | exact I].
  - eapply H2; [reflexivity | exact I].
  - eapply H3; [reflexivity | exact I].
  - eapply H4; [reflexivity | exact I].
Defined.

(** ** The agent *)

(** C4, as stated, fails: the first response contains the "finish"
    invocation with the arguments of the claim, after an invocation of
    [extract_key_points]; the loop returns these arguments, but only after a
    second gateway call, the extraction. *)
Lemma finish_after_extract_counterexample :
  stub finish_after_extract []
    (request (initial_conversation (VStr "T") (VStr "C")) define_agent_tools None)
  = Some (answer_calls [invocation "extract_key_points" []; finish_call])
  /\ In finish_call
       (msg_tool_calls (answer_calls [invocation "extract_key_points" []; finish_call]))
  /\ tc_arguments finish_call
     = Some (VDict [("summary", VStr "S"); ("social_posts", VDict []);
                    ("email", VDict [])])
  /\ fst (run_agent_workflow (stub finish_after_extract) (Some the_post) the_post [])
     = Ok finish_arguments
  /\ List.length
       (snd (run_agent_workflow (stub finish_after_extract) (Some the_post) the_post []))
     = 2.
Proof.
  repeat split; try reflexivity. right. left. reflexivity.
Qed.

Lemma finish_first_returns_arguments_witness :
  run_agent_workflow (stub finish_first) (Some the_post) the_post [] =
  (Ok (VDict [("summary", VStr "S"); ("social_posts", VDict []); ("email", VDict [])]),
   [] ++ [(request (initial_conversation (VStr "T") (VStr "C")) define_agent_tools None,
           Some (answer_calls [finish_call]))]).
Proof.
  refine (finish_first_returns_arguments (stub finish_first) (Some the_post)
            the_post (VStr "T") (VStr "C") [] (answer_calls [finish_call])
            finish_call [] finish_arguments _ _ _ _ _ _); reflexivity.
Defined.

(** C2, as stated, fails: when the model asks for the four content tools in
    every response, each iteration makes nine gateway calls (the agent call,
    one for the key points, two each for the summary and the social posts,
    three for the newsletter), 180 in all, more than 20 * 7. *)
Lemma seven_calls_per_iteration_counterexample :
  List.length
    (snd (run_agent_workflow (stub all_at_once) (Some the_post) the_post [])) = 180
  /\ max_iterations * 7 = 140
  /\ (forall w req r, stub all_at_once w req = Some r ->
                      List.length (msg_tool_calls r) <= 4).
Proof.
  split; [vm_compute; reflexivity |]. split; [reflexivity |].
  apply stub_at_most; [lia |]. apply constant_agent. simpl. lia.
Qed.

Lemma agent_gateway_calls_bounded_witness :
  exists calls,
    snd (run_agent_workflow (stub all_at_once) (Some the_post) the_post [])
      = [] ++ calls
    /\ List.length calls <= max_iterations * (1 + 3 * 4).
Proof.
  refine (agent_gateway_calls_bounded (stub all_at_once) (Some the_post) 4
            the_post [] _).
  apply stub_at_most; [lia |]. apply constant_agent. simpl. lia.
Defined.


(** C6, as stated, fails.  In each of these three runs the model asks for a
    summary in nineteen turns, so that the accumulator holds one, and never
    asks for "finish"; the twentieth turn goes wrong, and the loop does not
    return the accumulator.  When the twentieth request of the agent loop
    fails, the loop returns the error mapping.  When the argument text of the
    twentieth invocation is not JSON, it raises.  When the sample blog post
    cannot be read and the twentieth invocation asks for the key points, it
    raises. *)
Lemma twentieth_turn_counterexample :
  (let run := run_agent_workflow (stub (after_turns 19 None))
                (Some the_post) the_post [] in
   agent_turns (snd run) = max_iterations
   /\ existsb (invokes "finish") (snd run) = false
   /\ existsb (invokes "generate_summary") (snd run) = true
   /\ fst run = Ok (VDict [("error", VStr "LLM call failed")]))
  /\ (let run := run_agent_workflow
                   (stub (after_turns 19 (Some (answer_calls [broken_call]))))
                   (Some the_post) the_post [] in
      agent_turns (snd run) = max_iterations
      /\ existsb (invokes "finish") (snd run) = false
      /\ fst run = Raise JSONDecodeError)
  /\ (let run := run_agent_workflow
                   (stub (after_turns 19
                            (Some (answer_calls [invocation "extract_key_points" []]))))
                   None the_post [] in
      agent_turns (snd run) = max_iterations
      /\ existsb (invokes "finish") (snd run) = false
      /\ fst run = Raise TypeError).
Proof. vm_compute. repeat split; reflexivity. Qed.

Lemma agent_exhaustion_returns_partial_results_witness :
  exists summary social_posts email calls produced,
    run_agent_workflow (stub summarizer) (Some the_post) the_post []
      = (Ok (VDict [("summary", summary); ("social_posts", social_posts);
                    ("email", email)]), [] ++ calls)
    /\ agent_turns calls <= max_iterations
    /\ (agent_turns calls = max_iterations \/ ends_in_prose calls)
    /\ turns (stub summarizer) (Some the_post) [] calls produced
    /\ match latest "generate_summary" produced with
       | Some tool_result => tool_result = VDict [("summary", summary)]
       | None => summary = VNone
       end
    /\ social_posts = match latest "create_social_media_posts" produced with
                      | Some tool_result => tool_result
                      | None => VNone
                      end
    /\ email = match latest "create_email_newsletter" produced with
               | Some tool_result => tool_result
               | None => VNone
               end
    /\ (existsb (invokes "generate_summary") calls = false -> summary = VNone)
    /\ (existsb (invokes "create_social_media_posts") calls = false
        -> social_posts = VNone)
    /\ (existsb (invokes "create_email_newsletter") calls = false -> email = VNone).
Proof.
  refine (agent_exhaustion_returns_partial_results (stub summarizer) (Some the_post)
            _ sample_is_the_post _ _ the_post [] the_post_is_blog_post).
  - apply stub_well_formed. apply constant_agent. reflexivity.
  - apply stub_never_finishes. apply constant_agent. reflexivity.
  - apply stub_answered. discriminate.
Defined.

(** ** The comparison *)

Lemma compare_outputs_reports_witness :
  exists c1 c2 c3 c4 c5 c6,
    compare_outputs (stub finish_first) some_results
      (VDict [("error", VStr "LLM call failed")]) [] =
      (Ok {| reflexion_eval :=
               {| eval_summary := evaluation_of (snd c1);
                  eval_social := evaluation_of (snd c2);
                  eval_email := evaluation_of (snd c3) |};
             agent_eval :=
               {| eval_summary := evaluation_of (snd c4);
                  eval_social := evaluation_of (snd c5);
                  eval_email := evaluation_of (snd c6) |} |},
       [] ++ [c1; c2; c3; c4; c5; c6])
    /\ map fst [c1; c2; c3; c4; c5; c6] =
       [evaluation_request (Fmt (VStr "S")) "summary";
        evaluation_request (Dumps (VDict [("twitter", VStr "x")])) "social_media_post";
        evaluation_request
          (Dumps (VDict [("subject", VStr "Sub"); ("body", VStr "Body")])) "email";
        evaluation_request (Fmt (VStr "")) "summary";
        evaluation_request (Dumps (VDict [])) "social_media_post";
        evaluation_request (Dumps (VDict [])) "email"].
Proof.
  refine (compare_outputs_reports (stub finish_first) _ some_results
            [("error", VStr "LLM call failed")] []).
  apply stub_text.
Defined.

(** C9, as stated, fails, in two ways.  An agent that ends without having
    produced anything returns its accumulator, whose three fields are present
    with value [None]: the comparison, after the seven calls of the pipeline
    with reflexion, the one call of the agent and the three evaluations of
    the pipeline's outputs, evaluates these fields as they are, [None] and
    the JSON text of [None], and puts no default in their place.  And an
    agent that finishes with arguments that are not a mapping makes the
    comparison raise. *)
Lemma absent_fields_counterexample :
  (fst (run_agent_workflow (stub idle) (Some the_post) the_post [])
   = Ok (VDict [("summary", VNone); ("social_posts", VNone); ("email", VNone)])
   /\ List.length (snd (compare_workflows (stub idle) (Some the_post) the_post []))
      = 7 + 1 + 3 + 3
   /\ map fst
        (skipn (7 + 1 + 3)
           (snd (compare_workflows (stub idle) (Some the_post) the_post [])))
      = [evaluation_request (Fmt VNone) "summary";
         evaluation_request (Dumps VNone) "social_media_post";
         evaluation_request (Dumps VNone) "email"])
  /\ (fst (run_agent_workflow (stub finish_with_list) (Some the_post) the_post [])
      = Ok (VList [])
      /\ fst (compare_workflows (stub finish_with_list) (Some the_post) the_post [])
         = Raise AttributeError).
Proof. vm_compute. repeat split; reflexivity. Qed.

(** The same on the return expression alone, for the accumulator as the agent
    loop initialises it. *)
Example null_fields_are_evaluated_as_they_are :
  map (fun c => fst c)
    (skipn 3 (snd (compare_outputs (stub finish_first) some_results
                     (VDict initial_results) []))) =
  [evaluation_request (Fmt VNone) "summary";
   evaluation_request (Dumps VNone) "social_media_post";
   evaluation_request (Dumps VNone) "email"].
Proof. reflexivity. Qed.

(** ** Further runs *)


Lemma generate_with_reflexion_gateway_down_witness :
  exists calls,
    generate_with_reflexion offline (ret (VStr "draft")) 3 (Some "email") []
      = (Ok (VStr "draft"), [] ++ calls)
    /\ count_calls evaluate_prompt calls = 3
    /\ count_calls improve_prompt calls = 3
    /\ Forall (fun c : Call => snd c = None) calls.
Proof.
  refine (generate_with_reflexion_gateway_down offline (ret (VStr "draft")) 3
            (Some "email") [] (VStr "draft") [] eq_refl _).
  intros w' req. reflexivity.
Defined.

Lemma generate_with_reflexion_raises_without_text_witness :
  generate_with_reflexion (always (answer_calls [])) (ret (VStr "draft")) 1 None []
  = (Raise TypeError,
     [] ++ [(evaluation_request (Fmt (VStr "draft")) "content",
             Some (answer_calls []))]).
Proof.
  refine (generate_with_reflexion_raises_without_text (always (answer_calls []))
            (ret (VStr "draft")) 1 None [] (VStr "draft") [] (answer_calls [])
            _ eq_refl eq_refl eq_refl).
  lia.
Defined.

Lemma content_tools_decode_witness :
  fst (task_extract_key_points
         (always (answer_calls
                    [invocation "any" [("key_points", VList [VStr "a"])]; finish_call]))
         the_post []) = Ok (VList [VStr "a"])
  /\ fst (task_generate_summary
            (always (answer_calls
                       [invocation "any" [("key_points", VList [VStr "a"])]; finish_call]))
            (VList [VStr "a"]) []) = Ok (VStr "")
  /\ fst (task_create_social_media_posts
            (always (answer_calls
                       [invocation "any" [("key_points", VList [VStr "a"])]; finish_call]))
            (VList [VStr "a"]) (VStr "T") [])
     = Ok (VDict [("key_points", VList [VStr "a"])])
  /\ fst (task_create_email_newsletter
            (always (answer_calls
                       [invocation "any" [("key_points", VList [VStr "a"])]; finish_call]))
            the_post (VStr "S") (VList [VStr "a"]) [])
     = Ok (VDict [("key_points", VList [VStr "a"])]).
Proof.
  refine (content_tools_decode _ the_post (VStr "T") (VStr "S") [VStr "a"] []
            (answer_calls
               [invocation "any" [("key_points", VList [VStr "a"])]; finish_call])
            (invocation "any" [("key_points", VList [VStr "a"])]) [finish_call]
            [("key_points", VList [VStr "a"])]
            the_post_is_blog_post _ eq_refl eq_refl).
  intros req. reflexivity.
Defined.

Lemma content_tools_decode_non_mapping_witness :
  fst (task_extract_key_points (always (answer_calls [list_call])) the_post [])
    = Raise AttributeError
  /\ fst (task_generate_summary (always (answer_calls [list_call]))
            (VList [VStr "a"]) []) = Raise AttributeError
  /\ fst (task_create_social_media_posts (always (answer_calls [list_call]))
            (VList [VStr "a"]) (VStr "T") []) = Ok (VList [])
  /\ fst (task_create_email_newsletter (always (answer_calls [list_call]))
            the_post (VStr "S") (VList [VStr "a"]) []) = Ok (VList []).
Proof.
  refine (content_tools_decode_non_mapping _ the_post (VStr "T") (VStr "S")
            [VStr "a"] [] (answer_calls [list_call]) list_call [] (VList [])
            the_post_is_blog_post _ eq_refl eq_refl eq_refl).
  intros req. reflexivity.
Defined.

Lemma content_tools_decode_error_witness :
  fst (task_extract_key_points (always (answer_calls [broken_call])) the_post [])
    = Raise JSONDecodeError
  /\ fst (task_generate_summary (always (answer_calls [broken_call]))
            (VList [VStr "a"]) []) = Raise JSONDecodeError
  /\ fst (task_create_social_media_posts (always (answer_calls [broken_call]))
            (VList [VStr "a"]) (VStr "T") []) = Raise JSONDecodeError
  /\ fst (task_create_email_newsletter (always (answer_calls [broken_call]))
            the_post (VStr "S") (VList [VStr "a"]) []) = Raise JSONDecodeError.
Proof.
  refine (content_tools_decode_error _ the_post (VStr "T") (VStr "S")
            [VStr "a"] [] (answer_calls [broken_call]) broken_call []
            the_post_is_blog_post _ eq_refl eq_refl).
  intros req. reflexivity.
Defined.

Lemma content_tools_one_forced_call_witness :
  exists c, snd (task_extract_key_points offline the_post []) = [] ++ [c]
            /\ req_tools (fst c) = [extract_key_points_schema]
            /\ req_tool_choice (fst c) = Some "extract_key_points"
            /\ snd c = offline [] (fst c).
Proof.
  exact (proj1 (content_tools_one_forced_call offline the_post (VStr "T") (VStr "S")
                  [VStr "a"] [] the_post_is_blog_post)).
Defined.

Lemma execute_agent_tool_unknown_witness :
  execute_agent_tool offline None "translate" VNone [] = (Ok (VDict []), []).
Proof.
  refine (execute_agent_tool_unknown offline None "translate" VNone [] _ _ _ _);
    discriminate.
Defined.

Lemma execute_agent_tool_summary_given_witness :
  exists c,
    snd (execute_agent_tool offline None "generate_summary"
           (VDict [("key_points", VList [VStr "a"; VStr "b"])]) []) = [] ++ [c]
    /\ req_tool_choice (fst c) = Some "generate_summary"
    /\ req_messages (fst c) =
       [Msg "system" [Lit summary_prompt];
        Msg "user" (Lit "Summarize:" :: Lit nl :: join_bullets [VStr "a"; VStr "b"])]
    /\ snd c = offline [] (fst c).
Proof.
  refine (execute_agent_tool_summary_given offline None
            [("key_points", VList [VStr "a"; VStr "b"])] (VStr "a") [VStr "b"] [] _).
  reflexivity.
Defined.

Lemma execute_agent_tool_falsy_key_points_witness :
  execute_agent_tool (stub finish_first) (Some the_post) "generate_summary"
    (VDict [("key_points", VList [])]) []
  = execute_agent_tool (stub finish_first) (Some the_post) "generate_summary"
      (VDict []) [].
Proof.
  refine (execute_agent_tool_falsy_key_points (stub finish_first) (Some the_post)
            "generate_summary" [("key_points", VList [])] [] [] _ _ _);
    reflexivity.
Defined.

Lemma agent_conversation_append_only_witness :
  exists outcome calls,
    run_agent_workflow (stub summarizer) (Some the_post) the_post []
      = (outcome, [] ++ calls)
    /\ append_only (initial_conversation (VStr "T") (VStr "C"))
         (agent_conversations calls).
Proof.
  refine (agent_conversation_append_only (stub summarizer) (Some the_post) the_post
            (VStr "T") (VStr "C") [] _ _); reflexivity.
Defined.

Lemma run_tool_calls_stops_at_finish_witness :
  run_tool_calls (stub finish_first) (Some the_post)
    ([invocation "extract_key_points" []] ++
     finish_call :: [invocation "generate_summary" []]) [] initial_results []
  = run_tool_calls (stub finish_first) (Some the_post)
      ([invocation "extract_key_points" []] ++ [finish_call]) [] initial_results [].
Proof.
  refine (run_tool_calls_stops_at_finish (stub finish_first) (Some the_post)
            [invocation "extract_key_points" []] finish_call
            [invocation "generate_summary" []] [] initial_results [] _).
  reflexivity.
Defined.

Lemma agent_failed_request_returns_error_witness :
  fst (run_agent_workflow (stub flaky) (Some the_post) the_post [])
  = Ok (VDict [("error", VStr "LLM call failed")])
  /\ List.length (snd (run_agent_workflow (stub flaky) (Some the_post) the_post [])) = 4.
Proof.
  split; [| reflexivity].
  refine (agent_failed_request_returns_error (stub flaky) (Some the_post) the_post
            (fst (run_agent_workflow (stub flaky) (Some the_post) the_post []))
            (snd (run_agent_workflow (stub flaky) (Some the_post) the_post []))
            [] _
            (nth 3 (snd (run_agent_workflow (stub flaky) (Some the_post) the_post []))
               (request [] [] None, None)) _ _ _).
  - reflexivity.
  - vm_compute. right. right. right. left. reflexivity.
  - reflexivity.
  - reflexivity.
Defined.

Lemma agent_prose_answer_ends_run_witness :
  run_agent_workflow (critic "Nothing to do") (Some the_post) the_post [] =
  (Ok (VDict [("summary", VNone); ("social_posts", VNone); ("email", VNone)]),
   [] ++ [(request (initial_conversation (VStr "T") (VStr "C")) define_agent_tools None,
           Some (answer_text "Nothing to do"))]).
Proof.
  refine (agent_prose_answer_ends_run (critic "Nothing to do") (Some the_post)
            the_post (VStr "T") (VStr "C") [] (answer_text "Nothing to do")
            _ _ _ _); reflexivity.
Defined.

Lemma run_workflow_with_reflexion_returns_witness :
  exists result calls,
    run_workflow_with_reflexion (stub finish_first) the_post []
      = (Ok result, [] ++ calls)
    /\ List.length calls <= 22.
Proof.
  refine (run_workflow_with_reflexion_returns (stub finish_first) _ _ the_post []
            the_post_is_blog_post).
  - apply stub_well_formed. apply constant_agent. reflexivity.
  - apply stub_text.
Defined.

Lemma workflows_check_blog_post_witness :
  run_workflow_with_reflexion offline untitled [] = (Raise (KeyError "title"), [])
  /\ run_agent_workflow offline None untitled [] = (Raise (KeyError "title"), []).
Proof.
  refine (workflows_check_blog_post offline None untitled (KeyError "title") [] _).
  left. reflexivity.
Defined.

Lemma compare_outputs_non_mapping_witness :
  exists c1 c2 c3,
    compare_outputs (stub finish_first) some_results (VList []) []
      = (Raise AttributeError, [] ++ [c1; c2; c3])
    /\ map fst [c1; c2; c3] =
       [evaluation_request (Fmt (VStr "S")) "summary";
        evaluation_request (Dumps (VDict [("twitter", VStr "x")])) "social_media_post";
        evaluation_request
          (Dumps (VDict [("subject", VStr "Sub"); ("body", VStr "Body")])) "email"].
Proof.
  refine (compare_outputs_non_mapping (stub finish_first) _ some_results (VList [])
            [] _).
  - apply stub_text.
  - reflexivity.
Defined.

Lemma compare_workflows_bounded_witness :
  exists calls,
    snd (compare_workflows (stub all_at_once) (Some the_post) the_post []) = [] ++ calls
    /\ List.length calls <= 22 + max_iterations * (1 + 3 * 4) + 6.
Proof.
  refine (compare_workflows_bounded (stub all_at_once) (Some the_post) 4 the_post [] _).
  apply stub_at_most; [lia |]. apply constant_agent. simpl. lia.
Defined.

Lemma run_tool_calls_appends_tool_messages_witness :
  exists more,
    [ToolMsg "call" "extract_key_points"
       [Dumps (VDict [("key_points", VList [VStr "a"; VStr "b"])])];
     ToolMsg "call" "translate" [Dumps (VDict [])]] = [] ++ more
    /\ map tool_message_header more
       = map (fun tc => Some (tc_id tc, tc_name tc))
           [invocation "extract_key_points" []; invocation "translate" []].
Proof.
  refine (run_tool_calls_appends_tool_messages (stub finish_first) (Some the_post)
            [invocation "extract_key_points" []; invocation "translate" []]
            [] initial_results [] _ initial_results
            (snd (run_tool_calls (stub finish_first) (Some the_post)
                    [invocation "extract_key_points" []; invocation "translate" []]
                    [] initial_results [])) _).
  reflexivity.
Defined.

End Runs.
